(** * blender-mcp: the script repository and the execution harness

    A shallow embedding of [scripts/manager.py] (class [ScriptManager]) and
    of [blender/executor.py] (class [BlenderExecutor]), and the properties
    of the two that the specification states.

    Conventions of the model.
    - A Python [str] is a [string]; the characters the code looks at are all
      ASCII (the name grammar, line feed, carriage return).
    - A directory is a finite map from the script's name to the bytes of
      the file: [scripts_dir/scripts/<name>.py] is [scripts_path !! name],
      and [name -> <name>.py] is injective, so nothing is lost by keying on
      the name (a case-sensitive POSIX file system).
    - [datetime.datetime.now().isoformat()] is the argument [now].
    - An operation is a state transformer that also yields either the
      raised exception or the returned value; what an operation did before
      it raised stays done. *)

From Stdlib Require Import ZArith String Ascii List Lia.
From stdpp Require Import base option strings gmap fin_maps pretty.

Local Open Scope string_scope.
Local Open Scope Z_scope.

(** ** Characters and text files *)

Definition LF : ascii := "010"%char.
Definition CR : ascii := "013"%char.
Definition DQ : ascii := "034"%char.
Definition BSL : ascii := "092"%char.

Definition nl : string := String LF "".
Definition dq : string := String DQ "".

(** [open(path, "r").read()]: Python opens text files with universal
    newlines, so on reading every [\r\n] and every lone [\r] comes back as
    [\n].  ([open(path, "w")] writes [\n] as [os.linesep], which is [\n]
    on POSIX: the bytes stored are the string written.) *)
Fixpoint read_text (bytes : string) : string :=
  match bytes with
  | "" => ""
  | String c rest =>
      if Ascii.eqb c CR then
        match rest with
        | String c' rest' =>
            if Ascii.eqb c' LF then String LF (read_text rest')
            else String LF (read_text rest)
        | "" => String LF ""
        end
      else String c (read_text rest)
  end.

(** ** The name validator *)

(** The character class [[a-zA-Z0-9_-]]. *)
Definition name_char (c : ascii) : bool :=
  (("a" <=? c)%char && (c <=? "z")%char)
  || (("A" <=? c)%char && (c <=? "Z")%char)
  || (("0" <=? c)%char && (c <=? "9")%char)
  || Ascii.eqb c "_" || Ascii.eqb c "-".

(** [$] without [re.MULTILINE]: the end of the string, or just before a
    line feed that is the last character of the string. *)
Definition re_dollar (s : string) : bool :=
  match s with
  | "" => true
  | String c "" => Ascii.eqb c LF
  | _ => false
  end.

(** [[a-zA-Z0-9_-]+$] tried at the head of [s]: one character of the
    class, then either [$] or the same again. *)
Fixpoint re_class_plus_dollar (s : string) : bool :=
  match s with
  | "" => false
  | String c rest => name_char c && (re_dollar rest || re_class_plus_dollar rest)
  end.

(** [re.match(r'^[a-zA-Z0-9_-]+$', name)] as a truth value: [re.match]
    anchors at position 0, where [^] holds. *)
Definition re_match_name (name : string) : bool := re_class_plus_dollar name.

(** ** Exceptions and the repository state *)

Inductive exn : Type :=
  | ValueError (msg : string)
  | KeyError (key : string).

(** One entry of the metadata dictionary.  The code writes all four keys in
    [add_script] and reads only ["execution_count"], through
    [.get("execution_count", 0)]: [None] there is an entry without the key. *)
Record script_info : Type := mk_info {
  created : string;
  last_modified : string;
  last_executed : option string;
  execution_count : option Z
}.

(** [metadata.json] on disk. *)
Inductive index_file : Type :=
  | NoFile
  | Garbage
  | Json (m : gmap string script_info).

Record ScriptManager : Type := mk_manager {
  scripts_path : gmap string string;
  results_path : gmap string string;
  metadata_path : index_file;
  metadata : gmap string script_info
}.

Definition M (A : Type) : Type := ScriptManager -> ScriptManager * (exn + A).

Global Instance M_ret : MRet M := fun A (a : A) s => (s, inr a).
Global Instance M_bind : MBind M := fun A B (f : A -> M B) (c : M A) s =>
  match c s with
  | (s', inr a) => f a s'
  | (s', inl e) => (s', inl e)
  end.

Definition raise {A : Type} (e : exn) : M A := fun s => (s, inl e).
Definition gets {A : Type} (f : ScriptManager -> A) : M A := fun s => (s, inr (f s)).
Definition modify (f : ScriptManager -> ScriptManager) : M unit := fun s => (f s, inr tt).

Definition set_scripts (f : gmap string string -> gmap string string) (s : ScriptManager) :=
  mk_manager (f (scripts_path s)) (results_path s) (metadata_path s) (metadata s).
Definition set_results (f : gmap string string -> gmap string string) (s : ScriptManager) :=
  mk_manager (scripts_path s) (f (results_path s)) (metadata_path s) (metadata s).
Definition set_metadata (f : gmap string script_info -> gmap string script_info)
    (s : ScriptManager) :=
  mk_manager (scripts_path s) (results_path s) (metadata_path s) (f (metadata s)).

(** [self.metadata[name]]: a [KeyError] when the key is missing. *)
Definition metadata_getitem (name : string) : M script_info := fun s =>
  match metadata s !! name with
  | Some info => (s, inr info)
  | None => (s, inl (KeyError name))
  end.

(** ** The operations of [ScriptManager] *)

Definition _save_metadata : M unit :=
  modify (fun s => mk_manager (scripts_path s) (results_path s)
                              (Json (metadata s)) (metadata s)).

Definition _init_metadata : M unit :=
  idx ← gets metadata_path;
  match idx with
  | NoFile => modify (set_metadata (fun _ => ∅));; _save_metadata
  | Json m => modify (set_metadata (fun _ => m))
  | Garbage => modify (set_metadata (fun _ => ∅));; _save_metadata
  end.

(** [ScriptManager(scripts_dir)] over what the directory holds. *)
Definition __init__ (scripts results : gmap string string) (idx : index_file)
    : ScriptManager :=
  fst (_init_metadata (mk_manager scripts results idx ∅)).

Definition invalid_name_msg : string :=
  "Script name can only contain letters, numbers, underscores, and hyphens".

Definition _validate_script_name (name : string) : M string :=
  if re_match_name name then mret name
  else raise (ValueError invalid_name_msg).

Definition already_exists_msg (name : string) : string :=
  "Script '" +:+ name +:+ "' already exists".
Definition not_found_msg (name : string) : string :=
  "Script '" +:+ name +:+ "' not found".
Definition no_results_msg (name : string) : string :=
  "No execution results found for script '" +:+ name +:+ "'".

(** The dictionary keeps insertion order, which a [gmap] does not: the
    listing is modelled up to the order of its rows. *)
Definition list_scripts : M (list (string * script_info)) :=
  gets (fun s => map_to_list (metadata s)).

Definition add_script (name content now : string) : M unit :=
  name ← _validate_script_name name;
  script_path_exists ← gets (fun s => bool_decide (is_Some (scripts_path s !! name)));
  if script_path_exists : bool then raise (ValueError (already_exists_msg name))
  else
    modify (set_scripts (insert name content));;
    modify (set_metadata (insert name (mk_info now now None (Some 0))));;
    _save_metadata.

Definition edit_script (name content now : string) : M unit :=
  name ← _validate_script_name name;
  script_path_exists ← gets (fun s => bool_decide (is_Some (scripts_path s !! name)));
  if negb script_path_exists then raise (ValueError (not_found_msg name))
  else
    modify (set_scripts (insert name content));;
    info ← metadata_getitem name;
    modify (set_metadata (insert name
      (mk_info (created info) now (last_executed info) (execution_count info))));;
    _save_metadata.

Definition get_script (name : string) : M string :=
  name ← _validate_script_name name;
  file ← gets (fun s => scripts_path s !! name);
  match file with
  | None => raise (ValueError (not_found_msg name))
  | Some bytes => mret (read_text bytes)
  end.

Definition remove_script (name : string) : M unit :=
  name ← _validate_script_name name;
  script_path_exists ← gets (fun s => bool_decide (is_Some (scripts_path s !! name)));
  if negb script_path_exists then raise (ValueError (not_found_msg name))
  else
    modify (set_scripts (delete name));;
    result_path_exists ← gets (fun s => bool_decide (is_Some (results_path s !! name)));
    (if result_path_exists : bool then modify (set_results (delete name)) else mret tt);;
    in_metadata ← gets (fun s => bool_decide (is_Some (metadata s !! name)));
    if in_metadata : bool then
      modify (set_metadata (delete name));;
      _save_metadata
    else mret tt.

Definition save_result (name result now : string) : M unit :=
  name ← _validate_script_name name;
  modify (set_results (insert name result));;
  in_metadata ← gets (fun s => bool_decide (is_Some (metadata s !! name)));
  if in_metadata : bool then
    info ← metadata_getitem name;
    modify (set_metadata (insert name
      (mk_info (created info) (last_modified info) (Some now) (execution_count info))));;
    info ← metadata_getitem name;
    modify (set_metadata (insert name
      (mk_info (created info) (last_modified info) (last_executed info)
               (Some (default 0 (execution_count info) + 1)))));;
    _save_metadata
  else mret tt.

Definition get_result (name : string) : M string :=
  name ← _validate_script_name name;
  file ← gets (fun s => results_path s !! name);
  match file with
  | None => mret (no_results_msg name)
  | Some bytes => mret (read_text bytes)
  end.

(** ** The execution harness, [BlenderExecutor] *)

(** [s.replace(old, new)]: the occurrences of [old] are found from the
    left and do not overlap.  [skip] counts the characters of a matched
    occurrence that are still to be passed over. *)
Fixpoint replace_from (old new : string) (skip : nat) (s : string) : string :=
  match s with
  | "" => ""
  | String c rest =>
      match skip with
      | S k => replace_from old new k rest
      | O =>
          if String.prefix old s
          then new +:+ replace_from old new (String.length old - 1) rest
          else String c (replace_from old new 0 rest)
      end
  end.

Fixpoint intersperse_after (new s : string) : string :=
  match s with
  | "" => ""
  | String c rest => String c (new +:+ intersperse_after new rest)
  end.

Definition str_replace (old new s : string) : string :=
  match old with
  | "" => new +:+ intersperse_after new s
  | _ => replace_from old new 0 s
  end.

Record BlenderExecutor : Type := mk_executor {
  blender_path : string;
  timeout : Z;
  temp_dir : string
}.

(** How [subprocess.run(cmd, ..., timeout=self.timeout, text=True)] ends:
    with a [CompletedProcess], with [subprocess.TimeoutExpired], or with
    another exception, of which the code uses [str(e)]. *)
Inductive run_result : Type :=
  | CompletedProcess (returncode : Z) (stdout stderr : string)
  | TimeoutExpired
  | OtherException (str_e : string).

Definition envelope_head : string :=
  nl +:+
  "import sys" +:+ nl +:+
  "import io" +:+ nl +:+
  "import traceback" +:+ nl +:+
  nl +:+
  "# Redirect stdout and stderr" +:+ nl +:+
  "old_stdout = sys.stdout" +:+ nl +:+
  "old_stderr = sys.stderr" +:+ nl +:+
  "stdout_buffer = io.StringIO()" +:+ nl +:+
  "stderr_buffer = io.StringIO()" +:+ nl +:+
  "sys.stdout = stdout_buffer" +:+ nl +:+
  "sys.stderr = stderr_buffer" +:+ nl +:+
  nl +:+
  "try:" +:+ nl +:+
  "    # Execute the script" +:+ nl.

Definition envelope_middle : string :=
  nl +:+
  "except Exception as e:" +:+ nl +:+
  "    print(f" +:+ dq +:+ "Error executing script: {e}" +:+ dq +:+ ")" +:+ nl +:+
  "    traceback.print_exc()" +:+ nl +:+
  "finally:" +:+ nl +:+
  "    # Restore stdout and stderr" +:+ nl +:+
  "    sys.stdout = old_stdout" +:+ nl +:+
  "    sys.stderr = old_stderr" +:+ nl +:+
  "    " +:+ nl +:+
  "    # Write output to file" +:+ nl +:+
  "    with open(r" +:+ dq.

Definition envelope_tail : string :=
  dq +:+ ", " +:+ dq +:+ "w" +:+ dq +:+ ") as output:" +:+ nl +:+
  "        output.write(stdout_buffer.getvalue())" +:+ nl +:+
  "        output.write(" +:+ dq +:+ String BSL "n" +:+ String BSL "n" +:+ dq +:+ ")" +:+ nl +:+
  "        output.write(stderr_buffer.getvalue())" +:+ nl.

(** The f-string [wrapped_script] of [execute]. *)
Definition wrapped_script (script_content output_file : string) : string :=
  envelope_head
  +:+ str_replace nl (nl +:+ "    ") script_content
  +:+ envelope_middle +:+ output_file +:+ envelope_tail.

Definition no_output_msg : string := "No output captured from script.".

Definition timed_out_msg (self : BlenderExecutor) : string :=
  "Script execution timed out after " +:+ pretty (timeout self) +:+ " seconds".

Section Harness.

(** The host process: what running [cmd] does to the files and how the
    run ends. *)
Variable subprocess_run :
  list string -> gmap string string -> gmap string string * run_result.

Definition script_file_of (self : BlenderExecutor) (script_name : string) : string :=
  temp_dir self +:+ "/" +:+ script_name +:+ ".py".
Definition output_file_of (self : BlenderExecutor) (script_name : string) : string :=
  temp_dir self +:+ "/" +:+ script_name +:+ ".out".

(** The [finally] block: both scratch files are unlinked when present. *)
Definition clean_up (self : BlenderExecutor) (script_name : string)
    (fs : gmap string string) : gmap string string :=
  delete (output_file_of self script_name) (delete (script_file_of self script_name) fs).

(** The command line, or the text of the early [return].
    [if blend_file:] is false for [None] and for the empty string. *)
Definition build_cmd (self : BlenderExecutor) (script_name : string)
    (blend_file : option string) (fs : gmap string string) : string + list string :=
  let cmd := [blender_path self; "--background"] in
  let python := ["--python"; script_file_of self script_name] in
  match blend_file with
  | None => inr (cmd ++ python)%list
  | Some path =>
      if bool_decide (path = "") then inr (cmd ++ python)%list
      else if bool_decide (is_Some (fs !! path))
      then inr (cmd ++ ["--file"; path] ++ python)%list
      else inl ("Error: Blend file not found: " +:+ path)
  end.

(** The body of the [try]: the files after it and the text returned. *)
Definition run_and_collect (self : BlenderExecutor) (script_name : string)
    (blend_file : option string) (fs : gmap string string)
    : gmap string string * string :=
  match build_cmd self script_name blend_file fs with
  | inl err => (fs, err)
  | inr cmd =>
      match subprocess_run cmd fs with
      | (fs', CompletedProcess returncode stdout stderr) =>
          let script_output :=
            match fs' !! output_file_of self script_name with
            | Some bytes => read_text bytes
            | None => no_output_msg
            end in
          let script_output :=
            if bool_decide (returncode ≠ 0) then
              ((script_output
                +:+ (nl +:+ nl +:+ "Blender process output:" +:+ nl))
               +:+ ("STDOUT: " +:+ stdout +:+ nl))
              +:+ ("STDERR: " +:+ stderr)
            else script_output in
          (fs', script_output)
      | (fs', TimeoutExpired) => (fs', timed_out_msg self)
      | (fs', OtherException str_e) => (fs', "Error executing script: " +:+ str_e)
      end
  end.

(** [with open(script_file, "w") as f: f.write(wrapped_script)]. *)
Definition write_envelope (self : BlenderExecutor) (script_name script_content : string)
    (fs : gmap string string) : gmap string string :=
  <[script_file_of self script_name :=
      wrapped_script script_content (output_file_of self script_name)]> fs.

Definition execute (self : BlenderExecutor) (script_name script_content : string)
    (blend_file : option string) (fs : gmap string string)
    : gmap string string * string :=
  let fs := write_envelope self script_name script_content fs in
  let '(fs, text) := run_and_collect self script_name blend_file fs in
  (clean_up self script_name fs, text).

End Harness.

(** ** Finding the host executable *)

Definition common_paths : list string :=
  ["blender";
   "/usr/bin/blender";
   "/usr/local/bin/blender";
   "/Applications/Blender.app/Contents/MacOS/Blender";
   "C:\Program Files\Blender Foundation\Blender\blender.exe"].

(** How [subprocess.run([path, "--version"], ..., timeout=5)] ends: it
    returns (the return code is not looked at), it raises a
    [subprocess.SubprocessError] (a timeout is one), it raises
    [FileNotFoundError], or it raises something the [except] clause does
    not name (a [PermissionError], say), of which [str_e] is the text. *)
Inductive probe_outcome : Type :=
  | ProbeReturned
  | ProbeSubprocessError
  | ProbeFileNotFoundError
  | ProbeOtherException (str_e : string).

Inductive probe_loop : Type :=
  | ProbeFound (path : string)
  | ProbeRaised (str_e : string)
  | ProbeExhausted.

(** The [for path in common_paths] loop. *)
Fixpoint probe_paths (probe : string -> probe_outcome) (paths : list string)
    : probe_loop :=
  match paths with
  | [] => ProbeExhausted
  | path :: rest =>
      match probe path with
      | ProbeReturned => ProbeFound path
      | ProbeSubprocessError | ProbeFileNotFoundError => probe_paths probe rest
      | ProbeOtherException str_e => ProbeRaised str_e
      end
  end.

(** [inl] is the exception that left the function. *)
Definition _find_blender_executable (probe : string -> probe_outcome)
    : string + string :=
  match probe_paths probe common_paths with
  | ProbeFound path => inr path
  | ProbeRaised str_e => inl str_e
  | ProbeExhausted => inr "blender"
  end.

(** [BlenderExecutor(blender_path, timeout)]; [tempdir] is
    [tempfile.gettempdir()].  [blender_path or ...] takes the search for
    [None] and for the empty string. *)
Definition BlenderExecutor_init (probe : string -> probe_outcome)
    (blender_path : option string) (timeout : Z) (tempdir : string)
    : string + BlenderExecutor :=
  let found :=
    match blender_path with
    | None => _find_blender_executable probe
    | Some path =>
        if bool_decide (path = "") then _find_blender_executable probe
        else inr path
    end in
  match found with
  | inl str_e => inl str_e
  | inr path => inr (mk_executor path timeout (tempdir +:+ "/blender_mcp"))
  end.

(** ** The tools of [server.py] *)

Definition hex_digit (n : N) : ascii :=
  match n with
  | 0 => "0" | 1 => "1" | 2 => "2" | 3 => "3" | 4 => "4" | 5 => "5" | 6 => "6"
  | 7 => "7" | 8 => "8" | 9 => "9" | 10 => "a" | 11 => "b" | 12 => "c"
  | 13 => "d" | 14 => "e" | _ => "f"
  end%N%char.

(** One character inside [repr(s)] with the quote [q]. *)
Definition repr_char (q c : ascii) : string :=
  if Ascii.eqb c BSL then String BSL (String BSL "")
  else if Ascii.eqb c q then String BSL (String q "")
  else if Ascii.eqb c "009" then String BSL "t"
  else if Ascii.eqb c LF then String BSL "n"
  else if Ascii.eqb c CR then String BSL "r"
  else if (N_of_ascii c <? 32)%N || (N_of_ascii c =? 127)%N then
    String BSL (String "x" (String (hex_digit (N_of_ascii c / 16))
                              (String (hex_digit (N_of_ascii c mod 16)) "")))
  else String c "".

Fixpoint repr_body (q : ascii) (s : string) : string :=
  match s with
  | "" => ""
  | String c rest => repr_char q c +:+ repr_body q rest
  end.

Fixpoint contains_char (c : ascii) (s : string) : bool :=
  match s with
  | "" => false
  | String c' rest => Ascii.eqb c' c || contains_char c rest
  end.

(** [repr(s)] of a [str] made of ASCII characters: double quotes around it
    only when it holds a single quote and no double quote. *)
Definition py_repr (s : string) : string :=
  let q := if contains_char "'" s && negb (contains_char DQ s) then DQ else "'"%char in
  String q (repr_body q s +:+ String q "").

(** [str(e)]: the message of a [ValueError], the [repr] of the key of a
    [KeyError]. *)
Definition str_exn (e : exn) : string :=
  match e with
  | ValueError msg => msg
  | KeyError key => py_repr key
  end.

Module Server.

(** The tools that change the repository return a text and raise nothing:
    [except Exception as e] turns every exception into a reply. *)
Definition add_script (name content now : string) (s : ScriptManager)
    : ScriptManager * string :=
  match add_script name content now s with
  | (s', inr _) => (s', "Script '" +:+ name +:+ "' added successfully")
  | (s', inl e) => (s', "Error adding script: " +:+ str_exn e)
  end.

Definition edit_script (name content now : string) (s : ScriptManager)
    : ScriptManager * string :=
  match edit_script name content now s with
  | (s', inr _) => (s', "Script '" +:+ name +:+ "' updated successfully")
  | (s', inl e) => (s', "Error updating script: " +:+ str_exn e)
  end.

Definition remove_script (name : string) (s : ScriptManager)
    : ScriptManager * string :=
  match remove_script name s with
  | (s', inr _) => (s', "Script '" +:+ name +:+ "' removed successfully")
  | (s', inl e) => (s', "Error removing script: " +:+ str_exn e)
  end.

Definition executed_msg (name : string) : string :=
  "Script '" +:+ name +:+ "' executed successfully. Use 'result://" +:+ name
  +:+ "' to see the output.".

(** The [except Exception as e] block of [execute_script]: the error text
    is saved as the result and returned; an exception of this
    [save_result] leaves the tool. *)
Definition execute_script_except (name now : string) (e : exn)
    (s : ScriptManager) (fs : gmap string string)
    : (ScriptManager * gmap string string) * (exn + string) :=
  let error_msg := "Error executing script: " +:+ str_exn e in
  match save_result name error_msg now s with
  | (s', inr _) => ((s', fs), inr error_msg)
  | (s', inl e') => ((s', fs), inl e')
  end.

(** [execute_script(name, ctx, blend_file)] over the repository and the
    files the harness works on; [ctx.info] only reports progress. *)
Definition execute_script
    (subprocess_run : list string -> gmap string string -> gmap string string * run_result)
    (blender_executor : BlenderExecutor) (name : string) (blend_file : option string)
    (now : string) (s : ScriptManager) (fs : gmap string string)
    : (ScriptManager * gmap string string) * (exn + string) :=
  match get_script name s with
  | (s1, inl e) => execute_script_except name now e s1 fs
  | (s1, inr script_content) =>
      let '(fs', result) :=
        execute subprocess_run blender_executor name script_content blend_file fs in
      match save_result name result now s1 with
      | (s2, inr _) => ((s2, fs'), inr (executed_msg name))
      | (s2, inl e) => execute_script_except name now e s2 fs'
      end
  end.

End Server.

(** ** The specification's vocabulary *)

(** The name grammar in the specification's words: a non-empty string of
    ASCII letters, digits, underscores and hyphens. *)
Fixpoint all_name_chars (s : string) : bool :=
  match s with
  | "" => true
  | String c rest => name_char c && all_name_chars rest
  end.

Definition name_grammar (s : string) : bool :=
  match s with
  | "" => false
  | _ => all_name_chars s
  end.

(** A content unit and a metadata entry exist together or not at all. *)
Definition consistent (s : ScriptManager) : Prop :=
  forall n : string, is_Some (metadata s !! n) <-> is_Some (scripts_path s !! n).

(** An orphan: a content unit without a metadata entry. *)
Definition orphan (name : string) (s : ScriptManager) : Prop :=
  is_Some (scripts_path s !! name) /\ metadata s !! name = None.

(** An outcome the caller was meant to see: a value, or the [ValueError]
    the operations raise on purpose.  A [KeyError] is an escaped fault. *)
Definition graceful {A : Type} (r : exn + A) : Prop :=
  match r with
  | inr _ => True
  | inl (ValueError _) => True
  | inl (KeyError _) => False
  end.

(** Replacing every line feed by a line feed and four spaces, character by
    character. *)
Fixpoint indent_after_newlines (s : string) : string :=
  match s with
  | "" => ""
  | String c rest =>
      if Ascii.eqb c LF then String LF ("    " +:+ indent_after_newlines rest)
      else String c (indent_after_newlines rest)
  end.

(** [s.split('\n')]: the lines of a text, never an empty list. *)
Fixpoint split_lines (s : string) : list string :=
  match s with
  | "" => [""]
  | String c rest =>
      if Ascii.eqb c LF then "" :: split_lines rest
      else match split_lines rest with
           | l :: ls => String c l :: ls
           | [] => [String c ""]
           end
  end.

Fixpoint cr_free (s : string) : bool :=
  match s with
  | "" => true
  | String c rest => negb (Ascii.eqb c CR) && cr_free rest
  end.

(** The index on disk is the index in memory. *)
Definition synced (s : ScriptManager) : Prop :=
  metadata_path s = Json (metadata s).

(** One [save_result] after the other for the same name; a run is the text
    saved and the time of the save. *)
Definition save_results (name : string) (runs : list (string * string))
    (s : ScriptManager) : ScriptManager :=
  fold_left (fun s run => fst (save_result name (fst run) (snd run) s)) runs s.

(** A probe the search passes over. *)
Definition skipped (probe : string -> probe_outcome) (path : string) : Prop :=
  probe path = ProbeSubprocessError \/ probe path = ProbeFileNotFoundError.

(** ["\n".join(lines)]. *)
Fixpoint join_lines (lines : list string) : string :=
  match lines with
  | [] => ""
  | [l] => l
  | l :: rest => l +:+ nl +:+ join_lines rest
  end.

(** The lines of the envelope before the content. *)
Definition try_header_lines : list string :=
  [""; "import sys"; "import io"; "import traceback"; "";
   "# Redirect stdout and stderr";
   "old_stdout = sys.stdout"; "old_stderr = sys.stderr";
   "stdout_buffer = io.StringIO()"; "stderr_buffer = io.StringIO()";
   "sys.stdout = stdout_buffer"; "sys.stderr = stderr_buffer"; "";
   "try:"; "    # Execute the script"].

(** The lines of the envelope after the content. *)
Definition handler_lines (output_file : string) : list string :=
  ["except Exception as e:";
   "    print(f" +:+ dq +:+ "Error executing script: {e}" +:+ dq +:+ ")";
   "    traceback.print_exc()";
   "finally:";
   "    # Restore stdout and stderr";
   "    sys.stdout = old_stdout"; "    sys.stderr = old_stderr"; "    ";
   "    # Write output to file";
   "    with open(r" +:+ dq +:+ output_file +:+ dq +:+ ", " +:+ dq +:+ "w" +:+ dq
     +:+ ") as output:";
   "        output.write(stdout_buffer.getvalue())";
   "        output.write(" +:+ dq +:+ String BSL "n" +:+ String BSL "n" +:+ dq +:+ ")";
   "        output.write(stderr_buffer.getvalue())"; ""].

(** ** Sample states *)

Definition info0 : script_info := mk_info "2025-01-01T00:00:00" "2025-01-01T00:00:00" None (Some 0).

(** A repository holding the one script [t1], never executed. *)
Definition repo_t1 : ScriptManager :=
  mk_manager {["t1" := "print('hi')"]} ∅ (Json {["t1" := info0]}) {["t1" := info0]}.

(** A repository started over a directory whose index was unreadable: the
    script file of [t1] is there, its metadata entry is not. *)
Definition repo_orphan : ScriptManager :=
  __init__ {["t1" := "print('hi')"]} ∅ Garbage.

(** A repository started over a directory whose index still lists [t1]
    although the script file is gone. *)
Definition repo_dangling : ScriptManager :=
  __init__ ∅ ∅ (Json {["t1" := info0]}).

(** A host that is still running when the timeout expires. *)
Definition host_hangs (cmd : list string) (fs : gmap string string)
    : gmap string string * run_result :=
  (fs, TimeoutExpired).

(** A host that runs the envelope of [t1], which writes its output file,
    and then exits with [returncode]. *)
Definition host_exits (returncode : Z) (cmd : list string) (fs : gmap string string)
    : gmap string string * run_result :=
  (<["/tmp/blender_mcp/t1.out" := "hi" +:+ nl +:+ nl]> fs,
   CompletedProcess returncode "boom" "trace").

(** A host that fails before the envelope runs: it writes no output file
    and exits with code 1. *)
Definition host_fails (cmd : list string) (fs : gmap string string)
    : gmap string string * run_result :=
  (fs, CompletedProcess 1 "boom" "trace").

(** A host that only reports, on its standard output, the text of the
    file named last on its command line, and exits with code 1. *)
Definition host_prints_script (cmd : list string) (fs : gmap string string)
    : gmap string string * run_result :=
  (fs, CompletedProcess 1 (default "" (last cmd ≫= fun path => fs !! path)) "").

Definition executor0 : BlenderExecutor := mk_executor "blender" 60 "/tmp/blender_mcp".

(** A machine on which only [/usr/local/bin/blender] is installed. *)
Definition probe_usr_local (path : string) : probe_outcome :=
  if bool_decide (path = "/usr/local/bin/blender") then ProbeReturned
  else ProbeFileNotFoundError.

(** ** Tactics for running the operations *)

Ltac unfold_ops :=
  unfold add_script, edit_script, get_script, remove_script, save_result,
    get_result, list_scripts, _validate_script_name, _save_metadata,
    metadata_getitem, mbind, M_bind, mret, M_ret, raise, gets, modify,
    set_scripts, set_results, set_metadata in *.

Ltac step_ops :=
  cbn [fst snd scripts_path results_path metadata_path metadata negb] in *.

Ltac run_ops := unfold_ops; step_ops.

Ltac split_key n name :=
  destruct (decide (n = name)) as [->|?];
  [ rewrite ?lookup_insert_eq, ?lookup_delete_eq
  | rewrite ?lookup_insert_ne, ?lookup_delete_ne by congruence ].

(** ** The validator *)

Lemma name_char_LF : name_char LF = false.
Proof. reflexivity. Qed.

Lemma re_dollar_cases (s : string) :
  re_dollar s = true <-> s = "" \/ s = nl.
Proof.
  destruct s as [|c [|c' s']]; simpl.
  - split; auto.
  - rewrite Ascii.eqb_eq. unfold nl. split.
    + intros ->. now right.
    + intros [H|H]; [discriminate | now inversion H].
  - split; [discriminate | intros [H|H]; discriminate].
Qed.

Lemma name_grammar_cons (c : ascii) (s : string) :
  name_grammar (String c s) = name_char c && all_name_chars s.
Proof. reflexivity. Qed.

Lemma all_name_chars_grammar (s : string) :
  all_name_chars s = true -> s = "" \/ name_grammar s = true.
Proof. destruct s; [now left | now right]. Qed.

(** What the regular expression accepts: the names of the grammar, and the
    same names with one line feed appended. *)
Lemma re_match_name_iff (s : string) :
  re_match_name s = true <->
  name_grammar s = true \/ exists w, name_grammar w = true /\ s = w +:+ nl.
Proof.
  unfold re_match_name. induction s as [|c s IH].
  - simpl. split; [discriminate|].
    intros [H | (w & Hw & E)]; [discriminate|].
    destruct w; [discriminate | discriminate].
  - cbn [re_class_plus_dollar]. rewrite name_grammar_cons.
    rewrite andb_true_iff, orb_true_iff, re_dollar_cases, IH. clear IH. split.
    + intros [Hc [[-> | ->] | [Hs | (w & Hw & ->)]]].
      * left. now rewrite Hc.
      * right. exists (String c ""). split; [simpl; now rewrite Hc | reflexivity].
      * left. rewrite Hc. destruct s; [discriminate | exact Hs].
      * right. exists (String c w). split; [|reflexivity].
        rewrite name_grammar_cons, Hc. destruct w; [discriminate | exact Hw].
    + intros [H | (w & Hw & E)].
      * apply andb_true_iff in H as [Hc Hs]. split; [exact Hc|].
        destruct (all_name_chars_grammar s Hs) as [-> | Hg]; [left; now left|].
        right. now left.
      * destruct w as [|c' w]; [discriminate|]. simpl in E. injection E as <- ->.
        rewrite name_grammar_cons in Hw. apply andb_true_iff in Hw as [Hc Hw].
        split; [exact Hc|].
        destruct (all_name_chars_grammar w Hw) as [-> | Hg].
        -- left. now right.
        -- right. right. now exists w.
Qed.

(** Names with a slash, a space or dots never pass. *)
Example rejects_slash_space_dots :
  re_match_name "a/b" = false /\ re_match_name "a b" = false
  /\ re_match_name ".." = false /\ re_match_name "../etc" = false
  /\ re_match_name "" = false /\ re_match_name "ok_Name-1" = true.
Proof. repeat split. Qed.

(** The ends of the three ranges of the character class. *)
Example name_char_bounds :
  map name_char ["`"; "a"; "z"; "{"; "@"; "A"; "Z"; "["; "/"; "0"; "9"; ":"]%char
  = [false; true; true; false; false; true; true; false; false; true; true; false].
Proof. reflexivity. Qed.

Lemma name_grammar_accepted (s : string) :
  name_grammar s = true -> re_match_name s = true.
Proof. intros H. apply re_match_name_iff. now left. Qed.

(** ** Running the operations *)

(** A name the validator rejects stops every operation before it touches
    the files or the index. *)
Lemma rejected_name_no_mutation (name content text now : string) (s : ScriptManager) :
  re_match_name name = false ->
  add_script name content now s = (s, inl (ValueError invalid_name_msg))
  /\ edit_script name content now s = (s, inl (ValueError invalid_name_msg))
  /\ get_script name s = (s, inl (ValueError invalid_name_msg))
  /\ remove_script name s = (s, inl (ValueError invalid_name_msg))
  /\ save_result name text now s = (s, inl (ValueError invalid_name_msg))
  /\ get_result name s = (s, inl (ValueError invalid_name_msg)).
Proof.
  intros H. run_ops. rewrite H. repeat split.
Qed.

(** The state after [save_result] on a valid name. *)
Lemma save_result_run (name text now : string) (s : ScriptManager) :
  re_match_name name = true ->
  save_result name text now s =
    match metadata s !! name with
    | Some info =>
        let m := <[name := mk_info (created info) (last_modified info) (Some now)
                             (Some (default 0 (execution_count info) + 1))]> (metadata s) in
        (mk_manager (scripts_path s) (<[name := text]> (results_path s)) (Json m) m,
         inr tt)
    | None =>
        (mk_manager (scripts_path s) (<[name := text]> (results_path s))
                    (metadata_path s) (metadata s), inr tt)
    end.
Proof.
  intros H. run_ops. rewrite H. step_ops.
  destruct (metadata s !! name) as [info|] eqn:E.
  - rewrite bool_decide_eq_true_2 by eauto. step_ops. rewrite E. step_ops.
    rewrite lookup_insert_eq. step_ops.
    cbn [created last_modified last_executed execution_count].
    rewrite insert_insert_eq. reflexivity.
  - rewrite bool_decide_eq_false_2; [reflexivity|].
    intros [x Hx]. discriminate.
Qed.

Lemma add_script_run (name content now : string) (s : ScriptManager) :
  re_match_name name = true ->
  add_script name content now s =
    match scripts_path s !! name with
    | Some _ => (s, inl (ValueError (already_exists_msg name)))
    | None =>
        let m := <[name := mk_info now now None (Some 0)]> (metadata s) in
        (mk_manager (<[name := content]> (scripts_path s)) (results_path s) (Json m) m,
         inr tt)
    end.
Proof.
  intros H. run_ops. rewrite H. step_ops.
  destruct (scripts_path s !! name) as [old|] eqn:E.
  - rewrite bool_decide_eq_true_2 by eauto. reflexivity.
  - rewrite bool_decide_eq_false_2; [reflexivity|].
    intros [x Hx]. discriminate.
Qed.

Lemma edit_script_run (name content now : string) (s : ScriptManager) :
  re_match_name name = true ->
  edit_script name content now s =
    match scripts_path s !! name with
    | None => (s, inl (ValueError (not_found_msg name)))
    | Some _ =>
        let files := <[name := content]> (scripts_path s) in
        match metadata s !! name with
        | None =>
            (mk_manager files (results_path s) (metadata_path s) (metadata s),
             inl (KeyError name))
        | Some info =>
            let m := <[name := mk_info (created info) now (last_executed info)
                                 (execution_count info)]> (metadata s) in
            (mk_manager files (results_path s) (Json m) m, inr tt)
        end
    end.
Proof.
  intros H. run_ops. rewrite H. step_ops.
  destruct (scripts_path s !! name) as [old|] eqn:E.
  - rewrite bool_decide_eq_true_2 by eauto. step_ops.
    destruct (metadata s !! name) as [info|]; reflexivity.
  - rewrite bool_decide_eq_false_2; [reflexivity|].
    intros [x Hx]. discriminate.
Qed.

Lemma get_script_run (name : string) (s : ScriptManager) :
  re_match_name name = true ->
  get_script name s =
    match scripts_path s !! name with
    | None => (s, inl (ValueError (not_found_msg name)))
    | Some bytes => (s, inr (read_text bytes))
    end.
Proof.
  intros H. run_ops. rewrite H. step_ops.
  destruct (scripts_path s !! name); reflexivity.
Qed.

Lemma get_result_run (name : string) (s : ScriptManager) :
  re_match_name name = true ->
  get_result name s =
    match results_path s !! name with
    | None => (s, inr (no_results_msg name))
    | Some bytes => (s, inr (read_text bytes))
    end.
Proof.
  intros H. run_ops. rewrite H. step_ops.
  destruct (results_path s !! name); reflexivity.
Qed.

Lemma remove_script_run (name : string) (s : ScriptManager) :
  re_match_name name = true ->
  remove_script name s =
    match scripts_path s !! name with
    | None => (s, inl (ValueError (not_found_msg name)))
    | Some _ =>
        let files := delete name (scripts_path s) in
        let results := delete name (results_path s) in
        match metadata s !! name with
        | None => (mk_manager files results (metadata_path s) (metadata s), inr tt)
        | Some _ =>
            let m := delete name (metadata s) in
            (mk_manager files results (Json m) m, inr tt)
        end
    end.
Proof.
  intros H. run_ops. rewrite H. step_ops.
  destruct (scripts_path s !! name) as [old|] eqn:E.
  - rewrite bool_decide_eq_true_2 by eauto. step_ops.
    destruct (results_path s !! name) as [r|] eqn:R.
    + rewrite bool_decide_eq_true_2 by eauto. step_ops.
      destruct (metadata s !! name) as [info|] eqn:Em.
      * rewrite bool_decide_eq_true_2 by eauto. reflexivity.
      * rewrite bool_decide_eq_false_2; [reflexivity|]. intros [x Hx]. discriminate.
    + rewrite bool_decide_eq_false_2 by (intros [x Hx]; discriminate). step_ops.
      rewrite (delete_id (results_path s) name R).
      destruct (metadata s !! name) as [info|] eqn:Em.
      * rewrite bool_decide_eq_true_2 by eauto. reflexivity.
      * rewrite bool_decide_eq_false_2; [reflexivity|]. intros [x Hx]. discriminate.
  - rewrite bool_decide_eq_false_2; [reflexivity|].
    intros [x Hx]. discriminate.
Qed.

(** ** The repository: results, round trips, preconditions *)

(** C1. For a valid name and any text, [save_result] stores the text as the
    result of the name without looking at the content unit; with a metadata
    entry it sets [last_executed] to the current time, adds exactly one to
    [execution_count] and persists the index, whatever the text says;
    without one the result is still stored and the metadata is untouched. *)
Theorem save_result_spec (name text now : string) (s : ScriptManager) :
  re_match_name name = true ->
  let s' := fst (save_result name text now s) in
  snd (save_result name text now s) = inr tt
  /\ results_path s' = <[name := text]> (results_path s)
  /\ scripts_path s' = scripts_path s
  /\ (forall info, metadata s !! name = Some info ->
        metadata s' =
          <[name := mk_info (created info) (last_modified info) (Some now)
                      (Some (default 0 (execution_count info) + 1))]> (metadata s)
        /\ metadata_path s' = Json (metadata s'))
  /\ (metadata s !! name = None ->
        metadata s' = metadata s /\ metadata_path s' = metadata_path s).
Proof.
  intros H s'. subst s'. rewrite (save_result_run _ _ _ _ H).
  destruct (metadata s !! name) as [info|] eqn:E; cbn.
  - split; [reflexivity|]. split; [reflexivity|]. split; [reflexivity|]. split.
    + intros info' [= <-]. split; reflexivity.
    + discriminate.
  - split; [reflexivity|]. split; [reflexivity|]. split; [reflexivity|]. split.
    + discriminate.
    + intros _. split; reflexivity.
Qed.

Lemma save_result_spec_witness :
  re_match_name "t1" = true
  /\ snd (save_result "t1" "Traceback: boom" "2025-01-02T00:00:00" repo_t1) = inr tt
  /\ metadata (fst (save_result "t1" "Traceback: boom" "2025-01-02T00:00:00" repo_t1))
       !! "t1"
     = Some (mk_info "2025-01-01T00:00:00" "2025-01-01T00:00:00"
                     (Some "2025-01-02T00:00:00") (Some 1)).
Proof.
  split; [reflexivity|].
  destruct (save_result_spec "t1" "Traceback: boom" "2025-01-02T00:00:00" repo_t1
              eq_refl) as (Hr & _ & _ & Hm & _).
  split; [exact Hr|].
  destruct (Hm info0 eq_refl) as [-> _]. reflexivity.
Defined.

(** C2, refuted as stated: a carriage return in the content comes back
    from [get] as a line feed. *)
Lemma add_get_carriage_return :
  ~ (forall (name content now : string) (s : ScriptManager),
       re_match_name name = true ->
       scripts_path s !! name = None ->
       snd ((add_script name content now;; get_script name) s) = inr content).
Proof.
  intros H.
  specialize (H "t1" (String "a" (String CR "b")) "2025-01-01T00:00:00"
                (__init__ ∅ ∅ NoFile) eq_refl eq_refl).
  vm_compute in H. discriminate.
Qed.

Lemma read_text_cr_free (s : string) : cr_free s = true -> read_text s = s.
Proof.
  induction s as [|c s IH]; [reflexivity|].
  cbn [cr_free read_text]. intros H. apply andb_true_iff in H as [Hc Hs].
  apply negb_true_iff in Hc. rewrite Hc, IH by exact Hs. reflexivity.
Qed.

(** C2, amended. For a valid name that has no content unit yet, [add] then
    [get] returns the content as a text-mode read yields it: every
    carriage-return/line-feed pair and every lone carriage return has
    become a line feed.  For content without a carriage return that is the
    content itself, character for character. *)
Theorem add_then_get (name content now : string) (s : ScriptManager) :
  re_match_name name = true ->
  scripts_path s !! name = None ->
  snd ((add_script name content now;; get_script name) s) = inr (read_text content)
  /\ (cr_free content = true ->
      snd ((add_script name content now;; get_script name) s) = inr content).
Proof.
  intros H E.
  assert (R : snd ((add_script name content now;; get_script name) s)
              = inr (read_text content)).
  { unfold mbind at 1, M_bind at 1. rewrite (add_script_run _ _ _ _ H), E.
    cbv beta iota zeta. rewrite (get_script_run _ _ H). cbn [scripts_path].
    rewrite lookup_insert_eq. reflexivity. }
  split; [exact R|]. intros Hcr. rewrite R, read_text_cr_free by exact Hcr.
  reflexivity.
Qed.

Lemma add_then_get_witness :
  re_match_name "t1" = true
  /\ scripts_path (__init__ ∅ ∅ NoFile) !! "t1" = None
  /\ snd ((add_script "t1" "print('hi')" "2025-01-01T00:00:00";; get_script "t1")
            (__init__ ∅ ∅ NoFile)) = inr "print('hi')".
Proof.
  split; [reflexivity|]. split; [reflexivity|].
  refine (proj2 (add_then_get "t1" "print('hi')" "2025-01-01T00:00:00"
                   (__init__ ∅ ∅ NoFile) _ _) _); reflexivity.
Defined.

(** C4, at the failing input. The name [a] followed by a line feed is not
    in the grammar (the line feed is none of the allowed characters), yet
    the validator returns it, because [$] also matches just before a final
    line feed; [add_script] then goes on to create the content unit and the
    metadata entry under that name. *)
Theorem validator_accepts_trailing_newline :
  let name := String "a" nl in
  let s0 := __init__ ∅ ∅ NoFile in
  name_grammar name = false
  /\ _validate_script_name name s0 = (s0, inr name)
  /\ snd (add_script name "pass" "2025-01-01T00:00:00" s0) = inr tt
  /\ scripts_path (fst (add_script name "pass" "2025-01-01T00:00:00" s0)) !! name
     = Some "pass"
  /\ is_Some (metadata (fst (add_script name "pass" "2025-01-01T00:00:00" s0)) !! name).
Proof.
  cbv zeta. split; [reflexivity|]. split; [reflexivity|].
  rewrite add_script_run by reflexivity.
  replace (scripts_path (__init__ ∅ ∅ NoFile) !! String "a" nl) with (@None string)
    by reflexivity.
  cbn [fst snd scripts_path metadata].
  split; [reflexivity|]. split; [apply lookup_insert_eq|].
  rewrite lookup_insert_eq. eauto.
Qed.

(** C5. For a valid name, [add] raises the already-exists error exactly
    when a content unit is present for the name, and then changes nothing;
    otherwise it returns, the content is written, the metadata entry of the
    name has [created = last_modified = now], no [last_executed] and an
    [execution_count] of zero, and the index on disk is the index in memory. *)
Theorem add_script_spec (name content now : string) (s : ScriptManager) :
  re_match_name name = true ->
  let s' := fst (add_script name content now s) in
  (snd (add_script name content now s) = inl (ValueError (already_exists_msg name))
   <-> is_Some (scripts_path s !! name))
  /\ (is_Some (scripts_path s !! name) -> s' = s)
  /\ (scripts_path s !! name = None ->
      snd (add_script name content now s) = inr tt
      /\ scripts_path s' = <[name := content]> (scripts_path s)
      /\ metadata s' = <[name := mk_info now now None (Some 0)]> (metadata s)
      /\ metadata s' !! name = Some (mk_info now now None (Some 0))
      /\ metadata_path s' = Json (metadata s')
      /\ results_path s' = results_path s).
Proof.
  intros H s'. subst s'. rewrite (add_script_run _ _ _ _ H).
  destruct (scripts_path s !! name) as [old|] eqn:E; cbn.
  - split; [split; eauto|]. split; [reflexivity | discriminate].
  - split.
    { split; [discriminate | intros [x Hx]; discriminate]. }
    split; [intros [x Hx]; discriminate|]. intros _.
    rewrite lookup_insert_eq. repeat (split; [reflexivity|]). reflexivity.
Qed.

Lemma add_script_spec_witness :
  re_match_name "t2" = true
  /\ snd (add_script "t2" "import bpy" "2025-01-03T00:00:00" repo_t1) = inr tt
  /\ metadata (fst (add_script "t2" "import bpy" "2025-01-03T00:00:00" repo_t1)) !! "t2"
     = Some (mk_info "2025-01-03T00:00:00" "2025-01-03T00:00:00" None (Some 0))
  /\ snd (add_script "t1" "import bpy" "2025-01-03T00:00:00" repo_t1)
     = inl (ValueError (already_exists_msg "t1")).
Proof.
  split; [reflexivity|].
  destruct (add_script_spec "t2" "import bpy" "2025-01-03T00:00:00" repo_t1 eq_refl)
    as (_ & _ & Hnew).
  destruct (Hnew eq_refl) as (Hr & _ & _ & Hm & _).
  split; [exact Hr|]. split; [exact Hm|].
  apply (add_script_spec "t1" "import bpy" "2025-01-03T00:00:00" repo_t1 eq_refl).
  vm_compute. eauto.
Defined.

(** ** The repository: absence, orphans and the existence invariant *)

(** C9. For a valid name [get_result] returns the no-results text, and
    raises nothing, whenever the name has no result unit; after a [remove]
    that went through, [get] raises the not-found error while [get_result]
    returns that text. *)
Theorem get_result_soft_miss (name : string) (s : ScriptManager) :
  re_match_name name = true ->
  (results_path s !! name = None ->
   get_result name s = (s, inr (no_results_msg name)))
  /\ (snd (remove_script name s) = inr tt ->
      let s' := fst (remove_script name s) in
      snd (get_script name s') = inl (ValueError (not_found_msg name))
      /\ snd (get_result name s') = inr (no_results_msg name)).
Proof.
  intros H. split.
  - intros E. rewrite (get_result_run _ _ H), E. reflexivity.
  - rewrite (remove_script_run _ _ H).
    destruct (scripts_path s !! name) as [old|]; [|discriminate].
    intros _ s'. subst s'.
    rewrite (get_script_run _ _ H), (get_result_run _ _ H).
    destruct (metadata s !! name); cbn; rewrite !lookup_delete_eq; split; reflexivity.
Qed.

Lemma get_result_soft_miss_witness :
  re_match_name "t1" = true
  /\ get_result "t1" repo_t1 = (repo_t1, inr "No execution results found for script 't1'")
  /\ snd (get_script "t1" (fst (remove_script "t1" repo_t1)))
     = inl (ValueError "Script 't1' not found")
  /\ snd (get_result "t1" (fst (remove_script "t1" repo_t1)))
     = inr "No execution results found for script 't1'".
Proof.
  split; [reflexivity|].
  destruct (get_result_soft_miss "t1" repo_t1 eq_refl) as [Hmiss Hrm].
  split; [exact (Hmiss eq_refl)|].
  exact (Hrm eq_refl).
Defined.

(** C6. From a state in which a metadata entry exists exactly for the names
    that have a content unit, every operation on a valid name ends in such
    a state again. *)
Theorem operations_preserve_consistency
    (name content text now : string) (s : ScriptManager) :
  re_match_name name = true ->
  consistent s ->
  consistent (fst (add_script name content now s))
  /\ consistent (fst (edit_script name content now s))
  /\ consistent (fst (get_script name s))
  /\ consistent (fst (remove_script name s))
  /\ consistent (fst (save_result name text now s))
  /\ consistent (fst (get_result name s))
  /\ consistent (fst (list_scripts s)).
Proof.
  intros H Hc.
  rewrite (add_script_run _ _ _ _ H), (edit_script_run _ _ _ _ H),
    (get_script_run _ _ H), (remove_script_run _ _ H), (save_result_run _ _ _ _ H),
    (get_result_run _ _ H).
  pose proof (Hc name) as Hname.
  destruct (scripts_path s !! name) as [old|] eqn:Es;
    destruct (metadata s !! name) as [info|] eqn:Em;
    destruct (results_path s !! name) as [res|] eqn:Er;
    try (exfalso; destruct Hname as [H1 H2];
         first [ refine (is_Some_None (H1 _)); eauto; fail
               | refine (is_Some_None (H2 _)); eauto; fail ]);
    cbn [fst]; repeat (match goal with |- _ /\ _ => split end); try exact Hc;
    unfold consistent in *; intros n; cbn [metadata scripts_path]; split_key n name;
    rewrite ?Es, ?Em; try apply Hc; split; eauto;
    intros [? ?]; discriminate.
Qed.

Lemma consistent_repo_t1 : consistent repo_t1.
Proof.
  intros n. unfold repo_t1. cbn [metadata scripts_path].
  destruct (decide (n = "t1")) as [->|Hne].
  - rewrite !lookup_singleton_eq. split; eauto.
  - rewrite !lookup_singleton_ne by congruence. split; intros [x Hx]; discriminate.
Qed.

Lemma operations_preserve_consistency_witness :
  re_match_name "t1" = true
  /\ consistent repo_t1
  /\ consistent (fst (remove_script "t1" repo_t1))
  /\ consistent (fst (save_result "t1" "hi" "2025-01-02T00:00:00" repo_t1)).
Proof.
  split; [reflexivity|]. split; [exact consistent_repo_t1|].
  destruct (operations_preserve_consistency "t1" "x" "hi" "2025-01-02T00:00:00"
              repo_t1 eq_refl consistent_repo_t1) as (_ & _ & _ & Hrm & Hsave & _).
  split; [exact Hrm | exact Hsave].
Defined.

Lemma repo_orphan_is_orphan : orphan "t1" repo_orphan.
Proof. split; [vm_compute; eauto | reflexivity]. Qed.

(** C3, refuted as stated. In the repository started over an unreadable
    index the script [t1] has a content unit and no metadata entry.  There
    [edit] does not raise the not-found error although no metadata entry
    exists; it overwrites the content and then lets a [KeyError] escape.
    And where the index lists [t1] but the script file is gone, [edit]
    raises the not-found error although the metadata entry exists. *)
Lemma edit_orphan_escapes :
  re_match_name "t1" = true
  /\ orphan "t1" repo_orphan
  /\ metadata repo_orphan !! "t1" = None
  /\ snd (edit_script "t1" "pass" "2025-01-02T00:00:00" repo_orphan)
     <> inl (ValueError (not_found_msg "t1"))
  /\ snd (edit_script "t1" "pass" "2025-01-02T00:00:00" repo_orphan)
     = inl (KeyError "t1")
  /\ ~ graceful (snd (edit_script "t1" "pass" "2025-01-02T00:00:00" repo_orphan))
  /\ scripts_path (fst (edit_script "t1" "pass" "2025-01-02T00:00:00" repo_orphan))
       !! "t1" = Some "pass"
  /\ metadata repo_dangling !! "t1" = Some info0
  /\ snd (edit_script "t1" "pass" "2025-01-02T00:00:00" repo_dangling)
     = inl (ValueError (not_found_msg "t1")).
Proof.
  split; [reflexivity|]. split; [exact repo_orphan_is_orphan|].
  split; [reflexivity|].
  rewrite !edit_script_run by reflexivity.
  replace (scripts_path repo_orphan !! "t1") with (Some "print('hi')") by reflexivity.
  replace (metadata repo_orphan !! "t1") with (@None script_info) by reflexivity.
  replace (scripts_path repo_dangling !! "t1") with (@None string) by reflexivity.
  cbn [fst snd scripts_path].
  split; [discriminate|]. split; [reflexivity|]. split; [intros []|].
  split; [apply lookup_insert_eq|]. split; reflexivity.
Qed.

(** C3, amended. For a valid name [edit] raises the not-found error exactly
    when the name has no content unit.  Where a content unit exists without
    a metadata entry, the other operations go through as follows: [add]
    raises the already-exists error and changes nothing; [get] returns the
    content; [remove] returns and deletes the content unit and any result
    without touching the index; [save_result] returns, stores the text as
    the result and leaves the metadata and the index file as they are;
    [get_result] returns the stored result, or the no-results text; the
    listing returns its rows, and the name is not among them. *)
Theorem edit_not_found_iff_no_content
    (name content text now : string) (s : ScriptManager) :
  re_match_name name = true ->
  (snd (edit_script name content now s) = inl (ValueError (not_found_msg name))
   <-> scripts_path s !! name = None)
  /\ (orphan name s ->
      add_script name content now s = (s, inl (ValueError (already_exists_msg name)))
      /\ (exists bytes, scripts_path s !! name = Some bytes
                        /\ get_script name s = (s, inr (read_text bytes)))
      /\ remove_script name s =
           (mk_manager (delete name (scripts_path s)) (delete name (results_path s))
                       (metadata_path s) (metadata s), inr tt)
      /\ save_result name text now s =
           (mk_manager (scripts_path s) (<[name := text]> (results_path s))
                       (metadata_path s) (metadata s), inr tt)
      /\ results_path (fst (save_result name text now s)) !! name = Some text
      /\ get_result name s =
           (s, inr (match results_path s !! name with
                    | Some bytes => read_text bytes
                    | None => "No execution results found for script '" +:+ name +:+ "'"
                    end))
      /\ (exists rows, list_scripts s = (s, inr rows) /\ name ∉ rows.*1)).
Proof.
  intros H. split.
  - rewrite (edit_script_run _ _ _ _ H).
    destruct (scripts_path s !! name) as [old|].
    + destruct (metadata s !! name); cbn; split; discriminate.
    + cbn. split; reflexivity.
  - intros [[bytes Es] Em].
    rewrite (add_script_run _ _ _ _ H), (get_script_run _ _ H),
      (remove_script_run _ _ H), (save_result_run _ _ _ _ H),
      (get_result_run _ _ H), Es, Em.
    cbn [fst snd metadata results_path].
    split; [reflexivity|]. split; [exists bytes; split; reflexivity|].
    split; [reflexivity|]. split; [reflexivity|].
    split; [apply lookup_insert_eq|].
    split; [destruct (results_path s !! name); reflexivity|].
    exists (map_to_list (metadata s)). split; [reflexivity|].
    intros Hin. apply list_elem_of_fmap in Hin as ([n info] & -> & Hin).
    apply elem_of_map_to_list in Hin. cbn [fst] in Em. congruence.
Qed.

Lemma edit_not_found_iff_no_content_witness :
  re_match_name "t1" = true
  /\ orphan "t1" repo_orphan
  /\ snd (remove_script "t1" repo_orphan) = inr tt
  /\ scripts_path (fst (remove_script "t1" repo_orphan)) !! "t1" = None
  /\ snd (save_result "t1" "hi" "2025-01-02T00:00:00" repo_orphan) = inr tt
  /\ results_path (fst (save_result "t1" "hi" "2025-01-02T00:00:00" repo_orphan)) !! "t1"
     = Some "hi"
  /\ get_result "t1" repo_orphan
     = (repo_orphan, inr "No execution results found for script 't1'")
  /\ list_scripts repo_orphan = (repo_orphan, inr [])
  /\ snd (edit_script "t2" "pass" "2025-01-02T00:00:00" repo_orphan)
     = inl (ValueError (not_found_msg "t2")).
Proof.
  split; [reflexivity|]. split; [exact repo_orphan_is_orphan|].
  destruct (edit_not_found_iff_no_content "t1" "pass" "hi" "2025-01-02T00:00:00"
              repo_orphan eq_refl) as [_ Horph].
  destruct (Horph repo_orphan_is_orphan)
    as (_ & _ & Hrm & Hsave & Hstored & Hres & _).
  rewrite Hrm, Hsave. cbn [fst snd scripts_path].
  split; [reflexivity|]. split; [apply lookup_delete_eq|].
  split; [reflexivity|]. split; [rewrite Hsave in Hstored; exact Hstored|].
  split; [rewrite Hres; reflexivity|]. split; [reflexivity|].
  apply (edit_not_found_iff_no_content "t2" "pass" "hi" "2025-01-02T00:00:00"
           repo_orphan eq_refl).
  reflexivity.
Defined.

(** ** The harness: the envelope *)

Lemma append_cons (x : ascii) (a b : string) : String x a +:+ b = String x (a +:+ b).
Proof. reflexivity. Qed.

Lemma append_assoc (a b c : string) : (a +:+ b) +:+ c = a +:+ b +:+ c.
Proof.
  induction a as [|x a IH]; [reflexivity|].
  rewrite !append_cons, IH. reflexivity.
Qed.

Lemma prefix_nl (c : ascii) (rest : string) :
  String.prefix nl (String c rest) = Ascii.eqb c LF.
Proof.
  unfold nl. cbn [String.prefix].
  destruct (ascii_dec LF c) as [<-|Hne].
  - destruct rest; reflexivity.
  - symmetry. apply Ascii.eqb_neq. congruence.
Qed.

(** [replace('\n', '\n    ')] is the character-wise indentation. *)
Lemma str_replace_nl (s : string) :
  str_replace nl (nl +:+ "    ") s = indent_after_newlines s.
Proof.
  unfold str_replace. cbn [nl].
  induction s as [|c s IH]; [reflexivity|].
  cbn [replace_from indent_after_newlines]. fold nl. rewrite prefix_nl.
  destruct (Ascii.eqb c LF).
  - change (String.length nl - 1)%nat with 0%nat. rewrite IH.
    rewrite append_assoc. reflexivity.
  - rewrite IH. reflexivity.
Qed.

Lemma split_lines_cons (s : string) : exists l ls, split_lines s = l :: ls.
Proof.
  induction s as [|c s (l & ls & IH)]; [now exists "", []|].
  cbn [split_lines]. destruct (Ascii.eqb c LF); [eauto|].
  rewrite IH. eauto.
Qed.

Lemma split_lines_four_spaces (s l : string) (ls : list string) :
  split_lines s = l :: ls ->
  split_lines ("    " +:+ s) = ("    " +:+ l) :: ls.
Proof.
  intros E.
  change ("    " +:+ s) with (String " " (String " " (String " " (String " " s)))).
  change ("    " +:+ l) with (String " " (String " " (String " " (String " " l)))).
  cbn. rewrite E. reflexivity.
Qed.

(** Line by line: the first line is kept, each later line gains four
    leading spaces. *)
Lemma split_lines_indent (s l : string) (ls : list string) :
  split_lines s = l :: ls ->
  split_lines (indent_after_newlines s) = l :: map (String.append "    ") ls.
Proof.
  revert l ls. induction s as [|c s IH]; intros l ls E.
  - injection E as <- <-. reflexivity.
  - cbn [split_lines indent_after_newlines] in *.
    destruct (split_lines_cons s) as (l' & ls' & E').
    destruct (Ascii.eqb c LF) eqn:Ec.
    + injection E as <- <-. cbn [split_lines]. rewrite Ascii.eqb_refl.
      rewrite (split_lines_four_spaces _ _ _ (IH _ _ E')), E'. reflexivity.
    + rewrite E' in E. injection E as <- <-.
      cbn [split_lines]. rewrite Ec, (IH _ _ E'). reflexivity.
Qed.

(** The envelope text for a content string is the fixed template around
    the content in which every line feed has become a line feed and four
    spaces.  Line by line, the guarded region holds the first line of the
    content as it is and every later line behind four more spaces. *)
Lemma wrapped_script_indents (script_content output_file : string) :
  wrapped_script script_content output_file
  = envelope_head +:+ indent_after_newlines script_content
    +:+ envelope_middle +:+ output_file +:+ envelope_tail
  /\ (exists l ls,
        split_lines script_content = l :: ls
        /\ split_lines (indent_after_newlines script_content)
           = l :: map (String.append "    ") ls)
  /\ str_replace nl (nl +:+ "    ") ("s = '''a" +:+ nl +:+ "b'''")
     = "s = '''a" +:+ nl +:+ "    b'''".
Proof.
  split; [unfold wrapped_script; now rewrite str_replace_nl|]. split.
  - destruct (split_lines_cons script_content) as (l & ls & E).
    exists l, ls. split; [exact E | exact (split_lines_indent _ _ _ E)].
  - reflexivity.
Qed.

(** ** The harness: how a run ends *)

Section HarnessOutcomes.

Variable subprocess_run :
  list string -> gmap string string -> gmap string string * run_result.
Variables (self : BlenderExecutor) (script_name script_content : string).
Variables (blend_file : option string) (fs : gmap string string).

Lemma execute_unfold :
  execute subprocess_run self script_name script_content blend_file fs
  = (clean_up self script_name
       (fst (run_and_collect subprocess_run self script_name blend_file
               (write_envelope self script_name script_content fs))),
     snd (run_and_collect subprocess_run self script_name blend_file
            (write_envelope self script_name script_content fs))).
Proof.
  unfold execute.
  destruct (run_and_collect subprocess_run self script_name blend_file
              (write_envelope self script_name script_content fs)).
  reflexivity.
Qed.

(** C7. When the host process was launched and exited: with a non-zero
    code, [execute] returns what it read from the output file (the text
    [No output captured from script.] when the file is missing) followed
    by the diagnostic section with the process's own standard output and
    standard error; with code zero it returns what it read, or that
    substitute text, and nothing more. *)
Theorem execute_completed
    (cmd : list string) (fs' : gmap string string)
    (returncode : Z) (stdout stderr : string) :
  build_cmd self script_name blend_file
    (write_envelope self script_name script_content fs) = inr cmd ->
  subprocess_run cmd (write_envelope self script_name script_content fs)
  = (fs', CompletedProcess returncode stdout stderr) ->
  let captured :=
    match fs' !! output_file_of self script_name with
    | Some bytes => read_text bytes
    | None => "No output captured from script."
    end in
  (returncode <> 0 ->
   snd (execute subprocess_run self script_name script_content blend_file fs)
   = captured +:+ nl +:+ nl +:+ "Blender process output:" +:+ nl
     +:+ "STDOUT: " +:+ stdout +:+ nl +:+ "STDERR: " +:+ stderr)
  /\ (returncode = 0 ->
      snd (execute subprocess_run self script_name script_content blend_file fs)
      = captured).
Proof.
  intros Hcmd Hrun captured. rewrite execute_unfold. cbn [snd].
  unfold run_and_collect. rewrite Hcmd, Hrun. cbn [snd].
  change no_output_msg with "No output captured from script.". fold captured. split.
  - intros Hrc. rewrite bool_decide_eq_true_2 by exact Hrc.
    rewrite !append_assoc. reflexivity.
  - intros Hrc. rewrite bool_decide_eq_false_2 by (intros Hne; now apply Hne).
    reflexivity.
Qed.

(** When the wait for the host process runs into the timeout, [execute]
    returns the text that names the timeout and its length in seconds. *)
Lemma execute_timed_out (cmd : list string) (fs' : gmap string string) :
  build_cmd self script_name blend_file
    (write_envelope self script_name script_content fs) = inr cmd ->
  subprocess_run cmd (write_envelope self script_name script_content fs)
  = (fs', TimeoutExpired) ->
  snd (execute subprocess_run self script_name script_content blend_file fs)
  = "Script execution timed out after " +:+ pretty (timeout self) +:+ " seconds".
Proof.
  intros Hcmd Hrun. rewrite execute_unfold. cbn [snd].
  unfold run_and_collect. rewrite Hcmd, Hrun. reflexivity.
Qed.

(** A blend file that is named but absent: the error text comes back and
    the host process is never launched, whatever it would have done. *)
Lemma execute_missing_blend_file (path : string) :
  blend_file = Some path -> path <> "" ->
  write_envelope self script_name script_content fs !! path = None ->
  snd (execute subprocess_run self script_name script_content blend_file fs)
  = "Error: Blend file not found: " +:+ path.
Proof.
  intros E Hne Hmiss. rewrite execute_unfold. cbn [snd].
  unfold run_and_collect, build_cmd. rewrite E.
  rewrite bool_decide_eq_false_2 by exact Hne.
  rewrite bool_decide_eq_false_2; [reflexivity|].
  rewrite Hmiss. intros [x Hx]. discriminate.
Qed.

(** Whatever the outcome, the two scratch files are gone afterwards. *)
Lemma execute_cleans_up :
  let fs_end := fst (execute subprocess_run self script_name script_content blend_file fs) in
  fs_end !! script_file_of self script_name = None
  /\ fs_end !! output_file_of self script_name = None.
Proof.
  rewrite execute_unfold. cbn [fst]. unfold clean_up. split.
  - destruct (decide (output_file_of self script_name = script_file_of self script_name))
      as [E|E].
    + rewrite E. apply lookup_delete_eq.
    + rewrite lookup_delete_ne by exact E. apply lookup_delete_eq.
  - apply lookup_delete_eq.
Qed.

End HarnessOutcomes.

Lemma execute_completed_witness :
  snd (execute (host_exits 1) executor0 "t1" "print('hi')" None ∅)
  = "hi" +:+ nl +:+ nl +:+ nl +:+ nl +:+ "Blender process output:" +:+ nl
    +:+ "STDOUT: boom" +:+ nl +:+ "STDERR: trace"
  /\ snd (execute (host_exits 0) executor0 "t1" "print('hi')" None ∅)
     = "hi" +:+ nl +:+ nl
  /\ snd (execute host_fails executor0 "t1" "print('hi')" None ∅)
     = "No output captured from script." +:+ nl +:+ nl
       +:+ "Blender process output:" +:+ nl
       +:+ "STDOUT: boom" +:+ nl +:+ "STDERR: trace".
Proof.
  split; [|split].
  - destruct (execute_completed (host_exits 1) executor0 "t1" "print('hi')" None ∅
                ["blender"; "--background"; "--python"; "/tmp/blender_mcp/t1.py"]
                (fst (host_exits 1 [] (write_envelope executor0 "t1" "print('hi')" ∅)))
                1 "boom" "trace" eq_refl eq_refl) as [Hfail _].
    rewrite Hfail by lia. reflexivity.
  - destruct (execute_completed (host_exits 0) executor0 "t1" "print('hi')" None ∅
                ["blender"; "--background"; "--python"; "/tmp/blender_mcp/t1.py"]
                (fst (host_exits 0 [] (write_envelope executor0 "t1" "print('hi')" ∅)))
                0 "boom" "trace" eq_refl eq_refl) as [_ Hok].
    rewrite Hok by reflexivity. reflexivity.
  - destruct (execute_completed host_fails executor0 "t1" "print('hi')" None ∅
                ["blender"; "--background"; "--python"; "/tmp/blender_mcp/t1.py"]
                (write_envelope executor0 "t1" "print('hi')" ∅)
                1 "boom" "trace" eq_refl eq_refl) as [Hfail _].
    rewrite Hfail by lia. reflexivity.
Defined.

Lemma build_cmd_last (self : BlenderExecutor) (script_name : string)
    (blend_file : option string) (fs : gmap string string) (cmd : list string) :
  build_cmd self script_name blend_file fs = inr cmd ->
  last cmd = Some (script_file_of self script_name).
Proof.
  unfold build_cmd. destruct blend_file as [path|].
  - case_bool_decide; [intros [= <-]; reflexivity|].
    case_bool_decide; [intros [= <-]; reflexivity | discriminate].
  - intros [= <-]. reflexivity.
Qed.

(** C10. The envelope source that [execute] writes for a content string is
    the fixed template with the content substituted after every line feed
    in it has become a line feed followed by four spaces: [execute] is the
    run on the files in which the script file holds exactly that text, and
    when the host process is launched its command line ends with the path
    of that file.  Line by line, the guarded region holds the first line of
    the content as it is and every later line behind four more spaces, so
    a line feed inside a multi-line string literal changes the literal. *)
Theorem execute_writes_indented_envelope
    (subprocess_run : list string -> gmap string string -> gmap string string * run_result)
    (self : BlenderExecutor) (script_name script_content : string)
    (blend_file : option string) (fs : gmap string string) :
  let envelope :=
    envelope_head +:+ indent_after_newlines script_content
    +:+ envelope_middle +:+ output_file_of self script_name +:+ envelope_tail in
  let fs_launch := <[script_file_of self script_name := envelope]> fs in
  execute subprocess_run self script_name script_content blend_file fs
  = (clean_up self script_name
       (fst (run_and_collect subprocess_run self script_name blend_file fs_launch)),
     snd (run_and_collect subprocess_run self script_name blend_file fs_launch))
  /\ fs_launch !! script_file_of self script_name = Some envelope
  /\ (forall cmd,
        build_cmd self script_name blend_file fs_launch = inr cmd ->
        last cmd = Some (script_file_of self script_name)
        /\ fst (execute subprocess_run self script_name script_content blend_file fs)
           = clean_up self script_name (fst (subprocess_run cmd fs_launch)))
  /\ (exists l ls,
        split_lines script_content = l :: ls
        /\ split_lines (indent_after_newlines script_content)
           = l :: map (String.append "    ") ls)
  /\ str_replace nl (nl +:+ "    ") ("s = '''a" +:+ nl +:+ "b'''")
     = "s = '''a" +:+ nl +:+ "    b'''".
Proof.
  intros envelope fs_launch.
  assert (Hw : write_envelope self script_name script_content fs = fs_launch).
  { unfold write_envelope, wrapped_script. rewrite str_replace_nl. reflexivity. }
  assert (Hx : execute subprocess_run self script_name script_content blend_file fs
               = (clean_up self script_name
                    (fst (run_and_collect subprocess_run self script_name blend_file
                            fs_launch)),
                  snd (run_and_collect subprocess_run self script_name blend_file
                         fs_launch))).
  { rewrite execute_unfold, Hw. reflexivity. }
  split; [exact Hx|]. split; [apply lookup_insert_eq|]. split.
  - intros cmd Hcmd. split; [exact (build_cmd_last _ _ _ _ _ Hcmd)|].
    rewrite Hx. cbn [fst]. unfold run_and_collect. rewrite Hcmd.
    destruct (subprocess_run cmd fs_launch) as [fs' [rc out err | | e]]; reflexivity.
  - split.
    + destruct (split_lines_cons script_content) as (l & ls & E).
      exists l, ls. split; [exact E | exact (split_lines_indent _ _ _ E)].
    + reflexivity.
Qed.

Lemma execute_writes_indented_envelope_witness :
  snd (execute host_prints_script executor0 "t1" ("import bpy" +:+ nl +:+ "print('hi')")
         None ∅)
  = "No output captured from script." +:+ nl +:+ nl
    +:+ "Blender process output:" +:+ nl
    +:+ "STDOUT: "
    +:+ join_lines (try_header_lines
                    ++ ["import bpy"; "    print('hi')"]
                    ++ handler_lines "/tmp/blender_mcp/t1.out")%list
    +:+ nl +:+ "STDERR: ".
Proof.
  destruct (execute_writes_indented_envelope host_prints_script executor0 "t1"
              ("import bpy" +:+ nl +:+ "print('hi')") None ∅) as [-> _].
  vm_compute. reflexivity.
Defined.

(** C8. When the wait for the host process runs into the timeout,
    [execute] returns, as its value, the text saying that the execution
    timed out after the configured number of seconds; saving that text for
    a valid name that has a metadata entry returns, stores the text and
    adds one to [execution_count]. *)
Theorem execute_timeout_then_save
    (subprocess_run : list string -> gmap string string -> gmap string string * run_result)
    (self : BlenderExecutor) (name content now : string) (blend_file : option string)
    (fs fs' : gmap string string) (cmd : list string)
    (s : ScriptManager) (info : script_info) :
  let fs_launch := write_envelope self name content fs in
  let text := snd (execute subprocess_run self name content blend_file fs) in
  build_cmd self name blend_file fs_launch = inr cmd ->
  subprocess_run cmd fs_launch = (fs', TimeoutExpired) ->
  re_match_name name = true ->
  metadata s !! name = Some info ->
  text = "Script execution timed out after " +:+ pretty (timeout self) +:+ " seconds"
  /\ snd (save_result name text now s) = inr tt
  /\ results_path (fst (save_result name text now s)) !! name = Some text
  /\ metadata (fst (save_result name text now s)) !! name
     = Some (mk_info (created info) (last_modified info) (Some now)
                     (Some (default 0 (execution_count info) + 1))).
Proof.
  intros fs_launch text Hcmd Hrun H Em. split.
  - exact (execute_timed_out _ _ _ _ _ _ _ _ Hcmd Hrun).
  - rewrite (save_result_run _ _ _ _ H), Em. cbn [fst snd results_path metadata].
    rewrite !lookup_insert_eq. repeat split.
Qed.

Lemma execute_timeout_then_save_witness :
  snd (execute host_hangs executor0 "t1" "print('hi')" None ∅)
  = "Script execution timed out after 60 seconds"
  /\ metadata (fst (save_result "t1" "Script execution timed out after 60 seconds"
                      "2025-01-02T00:00:00" repo_t1)) !! "t1"
     = Some (mk_info "2025-01-01T00:00:00" "2025-01-01T00:00:00"
                     (Some "2025-01-02T00:00:00") (Some 1)).
Proof.
  destruct (execute_timeout_then_save host_hangs executor0 "t1" "print('hi')"
              "2025-01-02T00:00:00" None ∅
              (write_envelope executor0 "t1" "print('hi')" ∅)
              ["blender"; "--background"; "--python"; "/tmp/blender_mcp/t1.py"]
              repo_t1 info0 eq_refl eq_refl eq_refl eq_refl)
    as (Htext & _ & _ & Hmeta).
  split; [exact Htext|]. rewrite Htext in Hmeta. exact Hmeta.
Defined.

(** ** A whole run *)

(** The scenario of the specification: [t1] is added and executed by a host
    that exits with code 0 after the envelope wrote its output file; the
    result is saved and read back, and the counter stands at one. *)
Example add_execute_save_get :
  let s1 := fst (add_script "t1" "print('hi')" "2025-01-01T00:00:00"
                   (__init__ ∅ ∅ NoFile)) in
  let text := snd (execute (host_exits 0) executor0 "t1" "print('hi')" None ∅) in
  let s2 := fst (save_result "t1" text "2025-01-02T00:00:00" s1) in
  snd (get_script "t1" s1) = inr "print('hi')"
  /\ snd (get_result "t1" s2) = inr ("hi" +:+ nl +:+ nl)
  /\ execution_count <$> metadata s2 !! "t1" = Some (Some 1)
  /\ metadata_path s2 = Json (metadata s2).
Proof. vm_compute. repeat split. Qed.

(** ** More on the repository *)

(** X1. The validator returns the name, and leaves the state alone,
    exactly for the names of the grammar and for those names followed by
    one line feed; every other name gets the [ValueError] with the fixed
    message. *)
Theorem validate_script_name_language (name : string) (s : ScriptManager) :
  (_validate_script_name name s = (s, inr name)
   <-> name_grammar name = true
       \/ exists w, name_grammar w = true /\ name = w +:+ nl)
  /\ (_validate_script_name name s <> (s, inr name)
      -> _validate_script_name name s = (s, inl (ValueError invalid_name_msg))).
Proof.
  rewrite <- re_match_name_iff. unfold _validate_script_name, mret, M_ret, raise.
  destruct (re_match_name name); split.
  - split; reflexivity.
  - intros H. now contradict H.
  - split; discriminate.
  - reflexivity.
Qed.

Lemma other_character_rejected (c : ascii) (name : string) :
  contains_char c name = true -> name_char c = false -> c <> LF ->
  re_match_name name = false.
Proof.
  unfold re_match_name. intros Hin Hc Hlf.
  induction name as [|c' rest IH]; [reflexivity|].
  cbn [re_class_plus_dollar contains_char] in *.
  apply orb_true_iff in Hin as [Heq | Hin].
  - apply Ascii.eqb_eq in Heq as ->. rewrite Hc. reflexivity.
  - rewrite (IH Hin), orb_false_r.
    destruct rest as [|c1 [|c2 rest]]; cbn [re_dollar contains_char] in *.
    + discriminate.
    + rewrite orb_false_r in Hin. apply Ascii.eqb_eq in Hin as ->.
      rewrite (proj2 (Ascii.eqb_neq c LF) Hlf). apply andb_false_r.
    + apply andb_false_r.
Qed.

(** X2. A name that holds any character other than a letter, a digit, an
    underscore, a hyphen or a line feed (a slash, a dot, a space), and the
    empty name, is refused by every operation with the [ValueError] of the
    validator before anything is read or written: the repository is
    unchanged. *)
Theorem names_with_other_characters_rejected
    (c : ascii) (name content text now : string) (s : ScriptManager) :
  name = "" \/ (contains_char c name = true /\ name_char c = false /\ c <> LF) ->
  add_script name content now s = (s, inl (ValueError invalid_name_msg))
  /\ edit_script name content now s = (s, inl (ValueError invalid_name_msg))
  /\ get_script name s = (s, inl (ValueError invalid_name_msg))
  /\ remove_script name s = (s, inl (ValueError invalid_name_msg))
  /\ save_result name text now s = (s, inl (ValueError invalid_name_msg))
  /\ get_result name s = (s, inl (ValueError invalid_name_msg)).
Proof.
  intros Hbad. apply rejected_name_no_mutation.
  destruct Hbad as [-> | (Hin & Hc & Hlf)]; [reflexivity|].
  exact (other_character_rejected c name Hin Hc Hlf).
Qed.

Lemma names_with_other_characters_rejected_witness :
  contains_char "/" "../etc/passwd" = true
  /\ name_char "/" = false
  /\ add_script "../etc/passwd" "x" "2025-01-02T00:00:00" repo_t1
     = (repo_t1, inl (ValueError invalid_name_msg))
  /\ remove_script "../etc/passwd" repo_t1
     = (repo_t1, inl (ValueError invalid_name_msg)).
Proof.
  split; [reflexivity|]. split; [reflexivity|].
  assert (Hlf : "/"%char <> LF) by discriminate.
  destruct (names_with_other_characters_rejected "/" "../etc/passwd" "x" "y"
              "2025-01-02T00:00:00" repo_t1
              (or_intror (conj eq_refl (conj eq_refl Hlf))))
    as (Hadd & _ & _ & Hrm & _).
  split; [exact Hadd | exact Hrm].
Defined.

Lemma init_synced (scripts results : gmap string string) (idx : index_file) :
  synced (__init__ scripts results idx).
Proof. destruct idx; reflexivity. Qed.

(** X3. A repository comes out of its constructor, for every kind of index
    file (missing, unreadable, readable), with the index on disk equal to
    the index in memory; and from any state in which the two are equal,
    every operation, for any name and whether it returns or raises, ends
    in a state in which they are equal. *)
Theorem operations_keep_index_synced
    (name content text now : string) (s : ScriptManager) :
  (forall (scripts results : gmap string string) (idx : index_file),
     synced (__init__ scripts results idx)
     /\ metadata (__init__ scripts results idx)
        = match idx with Json m => m | NoFile | Garbage => ∅ end)
  /\ (synced s ->
      synced (fst (add_script name content now s))
      /\ synced (fst (edit_script name content now s))
      /\ synced (fst (get_script name s))
      /\ synced (fst (remove_script name s))
      /\ synced (fst (save_result name text now s))
      /\ synced (fst (get_result name s))
      /\ synced (fst (list_scripts s))).
Proof.
  split; [intros scripts results idx; destruct idx; split; reflexivity|].
  intros Hs. destruct (re_match_name name) eqn:H.
  - rewrite (add_script_run _ _ _ _ H), (edit_script_run _ _ _ _ H),
      (get_script_run _ _ H), (remove_script_run _ _ H), (save_result_run _ _ _ _ H),
      (get_result_run _ _ H).
    destruct (scripts_path s !! name), (metadata s !! name), (results_path s !! name);
      cbn [fst]; repeat (match goal with |- _ /\ _ => split end);
      first [exact Hs | reflexivity].
  - destruct (rejected_name_no_mutation name content text now s H)
      as (-> & -> & -> & -> & -> & ->).
    repeat (match goal with |- _ /\ _ => split end); exact Hs.
Qed.

Lemma operations_keep_index_synced_witness :
  synced (__init__ {["t1" := "print('hi')"]} ∅ Garbage)
  /\ synced (__init__ ∅ ∅ NoFile)
  /\ synced (__init__ ∅ ∅ (Json {["t1" := info0]}))
  /\ synced (fst (edit_script "t1" "pass" "2025-01-02T00:00:00" repo_orphan))
  /\ synced (fst (save_result "t1" "hi" "2025-01-02T00:00:00" repo_orphan)).
Proof.
  destruct (operations_keep_index_synced "t1" "pass" "hi" "2025-01-02T00:00:00"
              repo_orphan) as [Hinit Hops].
  split; [exact (proj1 (Hinit _ _ _))|]. split; [exact (proj1 (Hinit _ _ _))|].
  split; [exact (proj1 (Hinit _ _ _))|].
  destruct (Hops (proj1 (Hinit _ _ _))) as (_ & Hedit & _ & _ & Hsave & _).
  split; [exact Hedit | exact Hsave].
Defined.

Lemma init_garbage (scripts results : gmap string string) :
  __init__ scripts results Garbage = mk_manager scripts results (Json ∅) ∅.
Proof. reflexivity. Qed.

(** X4. A repository started over an unreadable index lists nothing.  A
    script file that was there before can be read and removed but not added
    again (the script "already exists") until it is removed; a name without
    a script file is added as in a fresh repository, and the index on disk
    then holds that one entry. *)
Theorem reset_index_orphans
    (scripts results : gmap string string) (name content now : string) :
  re_match_name name = true ->
  let s0 := __init__ scripts results Garbage in
  list_scripts s0 = (s0, inr [])
  /\ (forall bytes, scripts !! name = Some bytes ->
        snd (add_script name content now s0)
        = inl (ValueError (already_exists_msg name))
        /\ snd (get_script name s0) = inr (read_text bytes)
        /\ snd ((remove_script name;; add_script name content now) s0) = inr tt)
  /\ (scripts !! name = None ->
        snd (add_script name content now s0) = inr tt
        /\ metadata_path (fst (add_script name content now s0))
           = Json {[name := mk_info now now None (Some 0)]}).
Proof.
  intros H s0. subst s0. rewrite init_garbage. split; [|split].
  - unfold list_scripts, gets. cbn [metadata]. rewrite map_to_list_empty. reflexivity.
  - intros bytes E. rewrite (add_script_run _ _ _ _ H), (get_script_run _ _ H).
    cbn [scripts_path]. rewrite E. split; [reflexivity|]. split; [reflexivity|].
    unfold mbind, M_bind. rewrite (remove_script_run _ _ H).
    cbn [scripts_path metadata]. rewrite E, lookup_empty. cbv beta iota zeta.
    rewrite (add_script_run _ _ _ _ H). cbn [scripts_path].
    rewrite lookup_delete_eq. reflexivity.
  - intros E. rewrite (add_script_run _ _ _ _ H). cbn [scripts_path]. rewrite E.
    cbn [fst snd metadata metadata_path]. rewrite insert_empty.
    split; reflexivity.
Qed.

Lemma reset_index_orphans_witness :
  re_match_name "t1" = true
  /\ list_scripts repo_orphan = (repo_orphan, inr [])
  /\ snd (add_script "t1" "pass" "2025-01-02T00:00:00" repo_orphan)
     = inl (ValueError (already_exists_msg "t1"))
  /\ snd ((remove_script "t1";; add_script "t1" "pass" "2025-01-02T00:00:00")
            repo_orphan) = inr tt.
Proof.
  split; [reflexivity|].
  destruct (reset_index_orphans {["t1" := "print('hi')"]} ∅ "t1" "pass"
              "2025-01-02T00:00:00" eq_refl) as (Hlist & Hthere & _).
  split; [exact Hlist|].
  destruct (Hthere "print('hi')" eq_refl) as (Hadd & _ & Hagain).
  split; [exact Hadd | exact Hagain].
Defined.

(** X5. For a valid name that has a content unit and a metadata entry,
    [edit] returns; the content is replaced, [last_modified] becomes the
    current time while [created], [last_executed] and [execution_count]
    stay, the index is persisted, results are untouched, and [get] then
    returns the new content as text. *)
Theorem edit_script_spec (name content now : string) (s : ScriptManager)
    (old : string) (info : script_info) :
  re_match_name name = true ->
  scripts_path s !! name = Some old ->
  metadata s !! name = Some info ->
  let s' := fst (edit_script name content now s) in
  snd (edit_script name content now s) = inr tt
  /\ scripts_path s' = <[name := content]> (scripts_path s)
  /\ metadata s' = <[name := mk_info (created info) now (last_executed info)
                              (execution_count info)]> (metadata s)
  /\ metadata_path s' = Json (metadata s')
  /\ results_path s' = results_path s
  /\ snd (get_script name s') = inr (read_text content).
Proof.
  intros H Es Em s'. subst s'. rewrite (edit_script_run _ _ _ _ H), Es, Em.
  cbn [fst snd]. rewrite (get_script_run _ _ H). cbn [scripts_path metadata
    metadata_path results_path]. rewrite lookup_insert_eq.
  repeat (split; [reflexivity|]). reflexivity.
Qed.

Lemma edit_script_spec_witness :
  snd (edit_script "t1" "import bpy" "2025-01-05T00:00:00" repo_t1) = inr tt
  /\ metadata (fst (edit_script "t1" "import bpy" "2025-01-05T00:00:00" repo_t1)) !! "t1"
     = Some (mk_info "2025-01-01T00:00:00" "2025-01-05T00:00:00" None (Some 0))
  /\ snd (get_script "t1" (fst (edit_script "t1" "import bpy" "2025-01-05T00:00:00"
                                  repo_t1))) = inr "import bpy".
Proof.
  destruct (edit_script_spec "t1" "import bpy" "2025-01-05T00:00:00" repo_t1
              "print('hi')" info0 eq_refl eq_refl eq_refl)
    as (Hr & _ & Hm & _ & _ & Hget).
  split; [exact Hr|]. split; [|exact Hget].
  rewrite Hm. apply lookup_insert_eq.
Defined.

(** X6. For a valid name [remove] raises the not-found error exactly when
    the name has no content unit, and then changes nothing; otherwise it
    returns and the content unit, the result and the metadata entry of the
    name are all gone, whether or not a result or an entry was there. *)
Theorem remove_script_spec (name : string) (s : ScriptManager) :
  re_match_name name = true ->
  let s' := fst (remove_script name s) in
  (snd (remove_script name s) = inl (ValueError (not_found_msg name))
   <-> scripts_path s !! name = None)
  /\ (scripts_path s !! name = None -> s' = s)
  /\ (is_Some (scripts_path s !! name) ->
      snd (remove_script name s) = inr tt
      /\ scripts_path s' = delete name (scripts_path s)
      /\ results_path s' = delete name (results_path s)
      /\ metadata s' = delete name (metadata s)
      /\ (is_Some (metadata s !! name) -> metadata_path s' = Json (metadata s'))).
Proof.
  intros H s'. subst s'. rewrite (remove_script_run _ _ H).
  destruct (scripts_path s !! name) as [old|] eqn:Es.
  - destruct (metadata s !! name) as [info|] eqn:Em; cbn [fst snd scripts_path
      results_path metadata metadata_path].
    + split; [split; discriminate|]. split; [discriminate|]. intros _.
      repeat (split; [reflexivity|]). reflexivity.
    + split; [split; discriminate|]. split; [discriminate|]. intros _.
      repeat (split; [reflexivity|]). split; [now rewrite delete_id|].
      intros [x Hx]. discriminate.
  - cbn [fst snd]. split; [split; reflexivity|]. split; [reflexivity|].
    intros [x Hx]. discriminate.
Qed.

Lemma remove_script_spec_witness :
  re_match_name "t1" = true
  /\ snd (remove_script "t1" repo_t1) = inr tt
  /\ metadata (fst (remove_script "t1" repo_t1)) = delete "t1" (metadata repo_t1)
  /\ snd (remove_script "t2" repo_t1) = inl (ValueError (not_found_msg "t2")).
Proof.
  split; [reflexivity|].
  destruct (remove_script_spec "t1" repo_t1 eq_refl) as (_ & _ & Hrm).
  destruct Hrm as (Hr & _ & _ & Hm & _); [vm_compute; eauto|].
  split; [exact Hr|]. split; [exact Hm|].
  apply (remove_script_spec "t2" repo_t1 eq_refl). reflexivity.
Defined.

(** X7. An operation on one name leaves the content, the result and the
    metadata entry of every other name as they were. *)
Theorem operations_leave_other_names
    (name content text now other : string) (s : ScriptManager) :
  other <> name ->
  let untouched (s' : ScriptManager) :=
    scripts_path s' !! other = scripts_path s !! other
    /\ results_path s' !! other = results_path s !! other
    /\ metadata s' !! other = metadata s !! other in
  untouched (fst (add_script name content now s))
  /\ untouched (fst (edit_script name content now s))
  /\ untouched (fst (get_script name s))
  /\ untouched (fst (remove_script name s))
  /\ untouched (fst (save_result name text now s))
  /\ untouched (fst (get_result name s)).
Proof.
  intros Hne untouched. subst untouched. cbv beta.
  destruct (re_match_name name) eqn:H.
  - rewrite (add_script_run _ _ _ _ H), (edit_script_run _ _ _ _ H),
      (get_script_run _ _ H), (remove_script_run _ _ H), (save_result_run _ _ _ _ H),
      (get_result_run _ _ H).
    destruct (scripts_path s !! name), (metadata s !! name), (results_path s !! name);
      cbn [fst scripts_path results_path metadata];
      rewrite ?lookup_insert_ne, ?lookup_delete_ne by congruence;
      repeat (match goal with |- _ /\ _ => split end); reflexivity.
  - destruct (rejected_name_no_mutation name content text now s H)
      as (-> & -> & -> & -> & -> & ->).
    cbn [fst]. repeat (match goal with |- _ /\ _ => split end); reflexivity.
Qed.

Lemma operations_leave_other_names_witness :
  "t1" <> "t2"
  /\ scripts_path (fst (add_script "t2" "x" "2025-01-02T00:00:00" repo_t1)) !! "t1"
     = Some "print('hi')"
  /\ metadata (fst (remove_script "t2" repo_t1)) !! "t1" = Some info0.
Proof.
  assert (Hne : "t1" <> "t2") by discriminate.
  split; [exact Hne|].
  destruct (operations_leave_other_names "t2" "x" "y" "2025-01-02T00:00:00" "t1"
              repo_t1 Hne) as ((Hadd & _) & _ & _ & (_ & _ & Hrm) & _).
  split; [rewrite Hadd | rewrite Hrm]; reflexivity.
Defined.

(** X8. The listing changes nothing and has one row for each metadata
    entry and no other: a name is listed, with its entry, exactly when the
    index holds that entry, and no name is listed twice.  A content unit
    without an entry is therefore not listed. *)
Theorem list_scripts_rows (s : ScriptManager) :
  exists rows,
    list_scripts s = (s, inr rows)
    /\ (forall n info, (n, info) ∈ rows <-> metadata s !! n = Some info)
    /\ NoDup (rows.*1)
    /\ length rows = size (metadata s)
    /\ (forall n, orphan n s -> n ∉ rows.*1).
Proof.
  exists (map_to_list (metadata s)). split; [reflexivity|].
  split; [intros n info; apply elem_of_map_to_list|].
  split; [apply NoDup_fst_map_to_list|].
  split; [apply length_map_to_list|].
  intros n [_ Hn] Hin. apply list_elem_of_fmap in Hin as ([n' info] & -> & Hin).
  apply elem_of_map_to_list in Hin. cbn in Hn. congruence.
Qed.

Lemma save_results_snoc (name : string) (runs : list (string * string))
    (run : string * string) (s : ScriptManager) :
  save_results name (runs ++ [run])%list s
  = fst (save_result name (fst run) (snd run) (save_results name runs s)).
Proof. unfold save_results. rewrite fold_left_app. reflexivity. Qed.

Lemma save_results_entry (name : string) (runs : list (string * string))
    (s : ScriptManager) (info : script_info) :
  re_match_name name = true ->
  metadata s !! name = Some info ->
  exists info',
    metadata (save_results name runs s) !! name = Some info'
    /\ created info' = created info
    /\ last_modified info' = last_modified info
    /\ default 0 (execution_count info')
       = default 0 (execution_count info) + Z.of_nat (length runs)
    /\ (runs <> [] -> execution_count info'
                      = Some (default 0 (execution_count info) + Z.of_nat (length runs))).
Proof.
  intros H Em. induction runs as [|run runs IH] using rev_ind.
  - exists info. cbn [save_results fold_left length Z.of_nat].
    rewrite Z.add_0_r. repeat (split; [first [exact Em | reflexivity]|]).
    intros Hne. now contradict Hne.
  - destruct IH as (info1 & E1 & Hc & Hl & Hn & _).
    rewrite save_results_snoc, (save_result_run _ _ _ _ H), E1. cbn [fst metadata].
    rewrite lookup_insert_eq. eexists. split; [reflexivity|].
    cbn [created last_modified execution_count default].
    rewrite length_app, Nat2Z.inj_add. cbn [length]. rewrite Hn.
    split; [exact Hc|]. split; [exact Hl|].
    change (Z.of_nat 1) with 1. unfold id.
    generalize (default 0 (execution_count info)). intros c.
    split; [lia|]. intros _. f_equal. lia.
Qed.

(** X9. For a valid name with a metadata entry, after any number of saved
    results [execution_count] is the count before plus the number of saves
    (a missing counter counts as zero), [created] and [last_modified] are
    as before, and the stored result is the text of the last save. *)
Theorem execution_count_counts_saves (name : string) (runs : list (string * string))
    (s : ScriptManager) (info : script_info) :
  re_match_name name = true ->
  metadata s !! name = Some info ->
  exists info',
    metadata (save_results name runs s) !! name = Some info'
    /\ default 0 (execution_count info')
       = default 0 (execution_count info) + Z.of_nat (length runs)
    /\ created info' = created info
    /\ last_modified info' = last_modified info
    /\ (forall text now, last runs = Some (text, now) ->
          results_path (save_results name runs s) !! name = Some text
          /\ last_executed info' = Some now).
Proof.
  intros H Em.
  destruct (save_results_entry name runs s info H Em) as (info' & E & Hc & Hl & Hn & _).
  exists info'. repeat (split; [assumption|]).
  intros text now Hlast.
  destruct runs as [|r runs] using rev_ind; [discriminate|]. clear IHruns.
  rewrite last_snoc in Hlast. assert (r = (text, now)) as -> by congruence.
  rewrite save_results_snoc in *.
  destruct (save_results_entry name runs s info H Em) as (info1 & E1 & _).
  rewrite (save_result_run _ _ _ _ H), E1 in *. cbn [fst snd results_path metadata] in *.
  rewrite lookup_insert_eq in E. rewrite lookup_insert_eq.
  assert (Hi : last_executed info' = Some now) by (injection E as <-; reflexivity).
  split; [reflexivity | exact Hi].
Qed.

Lemma execution_count_counts_saves_witness :
  exists info',
    metadata (save_results "t1" [("hi", "2025-01-02T00:00:00");
                                 ("Script execution timed out after 60 seconds",
                                  "2025-01-03T00:00:00");
                                 ("bye", "2025-01-04T00:00:00")] repo_t1) !! "t1"
    = Some info'
    /\ default 0 (execution_count info') = 3
    /\ last_executed info' = Some "2025-01-04T00:00:00".
Proof.
  destruct (execution_count_counts_saves "t1"
              [("hi", "2025-01-02T00:00:00");
               ("Script execution timed out after 60 seconds", "2025-01-03T00:00:00");
               ("bye", "2025-01-04T00:00:00")] repo_t1 info0 eq_refl eq_refl)
    as (info' & E & Hn & _ & _ & Hlast).
  exists info'. split; [exact E|]. split; [exact Hn|].
  exact (proj2 (Hlast "bye" "2025-01-04T00:00:00" eq_refl)).
Defined.

(** X10. For a valid name, whether or not the script exists, a saved
    result is what [get_result] then returns, read as text; a text without
    a carriage return comes back character for character. *)
Theorem save_then_get_result (name text now : string) (s : ScriptManager) :
  re_match_name name = true ->
  snd ((save_result name text now;; get_result name) s) = inr (read_text text)
  /\ (cr_free text = true ->
      snd ((save_result name text now;; get_result name) s) = inr text).
Proof.
  intros H.
  assert (R : snd ((save_result name text now;; get_result name) s)
              = inr (read_text text)).
  { unfold mbind at 1, M_bind at 1. rewrite (save_result_run _ _ _ _ H).
    destruct (metadata s !! name); cbv beta iota zeta;
      rewrite (get_result_run _ _ H); cbn [results_path];
      rewrite lookup_insert_eq; reflexivity. }
  split; [exact R|]. intros Hcr. rewrite R, read_text_cr_free by exact Hcr.
  reflexivity.
Qed.

Lemma save_then_get_result_witness :
  re_match_name "gone" = true
  /\ snd ((save_result "gone" "late output" "2025-01-02T00:00:00";; get_result "gone")
            repo_t1) = inr "late output".
Proof.
  split; [reflexivity|].
  refine (proj2 (save_then_get_result "gone" "late output" "2025-01-02T00:00:00"
                   repo_t1 _) _); reflexivity.
Defined.

Lemma read_text_no_cr_upto (n : nat) (s : string) :
  (String.length s <= n)%nat -> cr_free (read_text s) = true.
Proof.
  revert s. induction n as [|n IH]; intros s Hlen.
  - destruct s; [reflexivity | cbn in Hlen; lia].
  - destruct s as [|c rest]; [reflexivity|]. cbn [String.length] in Hlen.
    cbn [read_text]. destruct (Ascii.eqb c CR) eqn:Ec.
    + destruct rest as [|c' rest']; [reflexivity|]. cbn [String.length] in Hlen.
      destruct (Ascii.eqb c' LF); cbn [cr_free]; apply IH; cbn [String.length]; lia.
    + cbn [cr_free]. rewrite Ec. apply IH. lia.
Qed.

Lemma read_text_no_cr (s : string) : cr_free (read_text s) = true.
Proof. apply (read_text_no_cr_upto (String.length s)). lia. Qed.

(** X11. What [get] returns for a valid name never holds a carriage
    return, reading it as text again changes nothing, and adding it under
    another valid, unused name and getting that returns the very same
    text: a script copied through [get] and [add] is copied exactly. *)
Theorem get_script_text_copies_exactly
    (name name' now bytes : string) (s : ScriptManager) :
  re_match_name name = true ->
  re_match_name name' = true ->
  scripts_path s !! name = Some bytes ->
  scripts_path s !! name' = None ->
  exists text,
    get_script name s = (s, inr text)
    /\ cr_free text = true
    /\ read_text text = text
    /\ snd ((add_script name' text now;; get_script name') s) = inr text.
Proof.
  intros H H' E E'. exists (read_text bytes).
  rewrite (get_script_run _ _ H), E. split; [reflexivity|].
  split; [apply read_text_no_cr|].
  split; [apply read_text_cr_free, read_text_no_cr|].
  unfold mbind at 1, M_bind at 1. rewrite (add_script_run _ _ _ _ H'), E'.
  cbv beta iota zeta. rewrite (get_script_run _ _ H'). cbn [scripts_path].
  rewrite lookup_insert_eq. cbn [snd].
  rewrite read_text_cr_free by apply read_text_no_cr. reflexivity.
Qed.

Lemma get_script_text_copies_exactly_witness :
  exists text,
    get_script "t1" repo_t1 = (repo_t1, inr text)
    /\ snd ((add_script "copy" text "2025-01-02T00:00:00";; get_script "copy") repo_t1)
       = inr text.
Proof.
  destruct (get_script_text_copies_exactly "t1" "copy" "2025-01-02T00:00:00"
              "print('hi')" repo_t1 eq_refl eq_refl eq_refl eq_refl)
    as (text & Hget & _ & _ & Hcopy).
  exists text. split; [exact Hget | exact Hcopy].
Defined.

(** ** More on the harness *)



(** X13. When the host process was launched, then however the run ended
    the files after [execute] are the files the host left, without the
    envelope and without the output file; every other path holds what the
    host left there. *)
Theorem execute_leaves_host_files
    (subprocess_run : list string -> gmap string string -> gmap string string * run_result)
    (self : BlenderExecutor) (script_name script_content : string)
    (blend_file : option string) (fs : gmap string string) (cmd : list string) :
  build_cmd self script_name blend_file
    (write_envelope self script_name script_content fs) = inr cmd ->
  let fs_host :=
    fst (subprocess_run cmd (write_envelope self script_name script_content fs)) in
  let fs_end :=
    fst (execute subprocess_run self script_name script_content blend_file fs) in
  fs_end !! script_file_of self script_name = None
  /\ fs_end !! output_file_of self script_name = None
  /\ (forall path, path <> script_file_of self script_name ->
                   path <> output_file_of self script_name ->
                   fs_end !! path = fs_host !! path).
Proof.
  intros Hcmd fs_host fs_end.
  destruct (execute_cleans_up subprocess_run self script_name script_content
              blend_file fs) as [Hs Ho].
  split; [exact Hs|]. split; [exact Ho|]. intros path Hps Hpo.
  subst fs_end fs_host. rewrite execute_unfold. cbn [fst].
  unfold run_and_collect. rewrite Hcmd.
  destruct (subprocess_run cmd (write_envelope self script_name script_content fs))
    as [fs' [rc out err | | e]]; cbn [fst]; unfold clean_up;
    rewrite !lookup_delete_ne by congruence; reflexivity.
Qed.

Lemma execute_leaves_host_files_witness :
  fst (execute (host_exits 1) executor0 "t1" "print('hi')" None
         {["/data/scene.blend" := "BLENDER"]}) !! "/tmp/blender_mcp/t1.out" = None
  /\ fst (execute (host_exits 1) executor0 "t1" "print('hi')" None
            {["/data/scene.blend" := "BLENDER"]}) !! "/data/scene.blend"
     = Some "BLENDER".
Proof.
  destruct (execute_leaves_host_files (host_exits 1) executor0 "t1" "print('hi')" None
              {["/data/scene.blend" := "BLENDER"]}
              ["blender"; "--background"; "--python"; "/tmp/blender_mcp/t1.py"]
              eq_refl) as (_ & Hout & Hother).
  split; [exact Hout|].
  rewrite Hother by discriminate. reflexivity.
Defined.



Lemma join_lines_cons (l l' : string) (ls : list string) :
  join_lines (l :: l' :: ls) = l +:+ nl +:+ join_lines (l' :: ls).
Proof. reflexivity. Qed.

Lemma join_split_lines (s : string) : join_lines (split_lines s) = s.
Proof.
  induction s as [|c s IH]; [reflexivity|].
  cbn [split_lines]. destruct (split_lines_cons s) as (l & ls & E).
  rewrite E in *. destruct (Ascii.eqb c LF) eqn:Ec.
  - apply Ascii.eqb_eq in Ec as ->. rewrite join_lines_cons, IH. reflexivity.
  - destruct ls as [|l' ls].
    + cbn [join_lines] in *. now rewrite IH.
    + rewrite join_lines_cons in *. rewrite append_cons, IH. reflexivity.
Qed.

Lemma join_lines_app (xs ys : list string) :
  xs <> [] -> ys <> [] ->
  join_lines (xs ++ ys)%list = join_lines xs +:+ nl +:+ join_lines ys.
Proof.
  intros Hx Hy. induction xs as [|x xs IH]; [now contradict Hx|].
  destruct xs as [|x' xs].
  - destruct ys as [|y ys]; [now contradict Hy | reflexivity].
  - cbn [app] in *. rewrite !join_lines_cons, IH by discriminate.
    rewrite !append_assoc. reflexivity.
Qed.

(** X15. The envelope, line by line: the fifteen fixed lines that end with
    [try:] and a comment, then the lines of the content, the first as it
    is and every later one behind four spaces, then the fourteen fixed
    lines of the handler, of which the tenth opens the output file. *)
Theorem wrapped_script_lines (script_content output_file l : string)
    (ls : list string) :
  split_lines script_content = l :: ls ->
  wrapped_script script_content output_file
  = join_lines (try_header_lines
                ++ (l :: map (String.append "    ") ls)
                ++ handler_lines output_file)%list.
Proof.
  intros E. unfold wrapped_script. rewrite str_replace_nl.
  rewrite join_lines_app by discriminate. rewrite join_lines_app by discriminate.
  rewrite <- (split_lines_indent _ _ _ E), join_split_lines.
  unfold handler_lines, envelope_middle, envelope_tail. cbn [join_lines].
  rewrite !append_assoc. reflexivity.
Qed.

Lemma wrapped_script_lines_witness :
  wrapped_script ("import bpy" +:+ nl +:+ "print('hi')") "/tmp/blender_mcp/t1.out"
  = join_lines (try_header_lines
                ++ ["import bpy"; "    print('hi')"]
                ++ handler_lines "/tmp/blender_mcp/t1.out")%list.
Proof.
  exact (wrapped_script_lines ("import bpy" +:+ nl +:+ "print('hi')")
           "/tmp/blender_mcp/t1.out" "import bpy" ["print('hi')"] eq_refl).
Defined.

(** ** Finding the executable *)

Lemma probe_paths_found (probe : string -> probe_outcome) (paths : list string)
    (p : string) :
  probe_paths probe paths = ProbeFound p <->
  exists pre post, paths = (pre ++ p :: post)%list
                   /\ Forall (skipped probe) pre /\ probe p = ProbeReturned.
Proof.
  induction paths as [|q paths IH]; cbn [probe_paths].
  - split; [discriminate|]. intros (pre & post & E & _). destruct pre; discriminate.
  - split.
    + destruct (probe q) eqn:Eq; try discriminate.
      * intros [= <-]. exists [], paths. repeat split; [constructor | exact Eq].
      * intros H. apply IH in H as (pre & post & -> & Hpre & Hp).
        exists (q :: pre), post. repeat split; [|exact Hp].
        constructor; [now left | exact Hpre].
      * intros H. apply IH in H as (pre & post & -> & Hpre & Hp).
        exists (q :: pre), post. repeat split; [|exact Hp].
        constructor; [now right | exact Hpre].
    + intros (pre & post & E & Hpre & Hp). destruct pre as [|q' pre].
      * cbn in E. injection E as -> ->. now rewrite Hp.
      * cbn in E. injection E as <- ->. apply Forall_cons in Hpre as [Hq Hpre].
        assert (R : probe_paths probe (pre ++ p :: post) = ProbeFound p)
          by (apply IH; eauto).
        destruct Hq as [-> | ->]; exact R.
Qed.

Lemma probe_paths_raised (probe : string -> probe_outcome) (paths : list string)
    (str_e : string) :
  probe_paths probe paths = ProbeRaised str_e <->
  exists pre q post, paths = (pre ++ q :: post)%list
                     /\ Forall (skipped probe) pre
                     /\ probe q = ProbeOtherException str_e.
Proof.
  induction paths as [|q paths IH]; cbn [probe_paths].
  - split; [discriminate|]. intros (pre & q & post & E & _). destruct pre; discriminate.
  - split.
    + destruct (probe q) eqn:Eq; try discriminate.
      * intros H. apply IH in H as (pre & q' & post & -> & Hpre & Hp).
        exists (q :: pre), q', post. repeat split; [|exact Hp].
        constructor; [now left | exact Hpre].
      * intros H. apply IH in H as (pre & q' & post & -> & Hpre & Hp).
        exists (q :: pre), q', post. repeat split; [|exact Hp].
        constructor; [now right | exact Hpre].
      * intros [= <-]. exists [], q, paths. repeat split; [constructor | exact Eq].
    + intros (pre & q' & post & E & Hpre & Hp). destruct pre as [|q0 pre].
      * cbn in E. injection E as -> ->. now rewrite Hp.
      * cbn in E. injection E as <- ->. apply Forall_cons in Hpre as [Hq Hpre].
        assert (R : probe_paths probe (pre ++ q' :: post) = ProbeRaised str_e)
          by (apply IH; eauto 6).
        destruct Hq as [-> | ->]; exact R.
Qed.

Lemma probe_paths_exhausted (probe : string -> probe_outcome) (paths : list string) :
  probe_paths probe paths = ProbeExhausted <-> Forall (skipped probe) paths.
Proof.
  induction paths as [|q paths IH]; cbn [probe_paths].
  - split; [constructor | reflexivity].
  - rewrite Forall_cons. unfold skipped at 1.
    destruct (probe q); rewrite ?IH; split; try discriminate; try tauto;
      intros [[?|?] _]; discriminate.
Qed.

Lemma find_blender_in_common_paths (probe : string -> probe_outcome) (p : string) :
  _find_blender_executable probe = inr p -> p ∈ common_paths.
Proof.
  unfold _find_blender_executable.
  destruct (probe_paths probe common_paths) as [q| |] eqn:E; [|discriminate|].
  - intros [= <-]. apply probe_paths_found in E as (pre & post & -> & _).
    apply elem_of_app. right. left.
  - intros [= <-]. left.
Qed.

(** X16. The search returns a path exactly when that path is the first of
    the five candidates whose [--version] run returns (whatever its return
    code) after only passed-over candidates, or when all five are passed
    over and the path is the fall-back [blender]; the search raises exactly
    when the first candidate not passed over ends in an exception that is
    neither a [SubprocessError] nor a [FileNotFoundError]. *)
Theorem find_blender_executable_spec (probe : string -> probe_outcome) :
  (forall p,
     _find_blender_executable probe = inr p <->
     (exists pre post, common_paths = (pre ++ p :: post)%list
                       /\ Forall (skipped probe) pre /\ probe p = ProbeReturned)
     \/ (p = "blender" /\ Forall (skipped probe) common_paths))
  /\ (forall str_e,
        _find_blender_executable probe = inl str_e <->
        exists pre q post, common_paths = (pre ++ q :: post)%list
                           /\ Forall (skipped probe) pre
                           /\ probe q = ProbeOtherException str_e).
Proof.
  unfold _find_blender_executable. split.
  - intros p. rewrite <- probe_paths_found, <- probe_paths_exhausted.
    destruct (probe_paths probe common_paths); split.
    + intros [= ->]. now left.
    + intros [[= ->] | [_ H]]; [reflexivity | discriminate].
    + discriminate.
    + intros [H | [_ H]]; discriminate.
    + intros [= <-]. now right.
    + intros [H | [-> _]]; [discriminate | reflexivity].
  - intros str_e. rewrite <- probe_paths_raised.
    destruct (probe_paths probe common_paths); split; try discriminate;
      intros [= ->]; reflexivity.
Qed.

(** X17. A constructor call that names a non-empty executable path takes it
    without probing anything.  Whenever the constructor returns, the
    executor has the given timeout, keeps its scratch files for a script
    [name] at [<tempdir>/blender_mcp/<name>.py] and [.out], and has either
    the named path or, after a search, one of the five candidates. *)
Theorem executor_init_spec (probe : string -> probe_outcome)
    (blender_path0 : option string) (timeout0 : Z) (tempdir : string)
    (self : BlenderExecutor) :
  BlenderExecutor_init probe blender_path0 timeout0 tempdir = inr self ->
  timeout self = timeout0
  /\ (forall name,
        script_file_of self name = tempdir +:+ "/blender_mcp/" +:+ name +:+ ".py"
        /\ output_file_of self name = tempdir +:+ "/blender_mcp/" +:+ name +:+ ".out")
  /\ (forall path, blender_path0 = Some path -> path <> "" ->
                   blender_path self = path
                   /\ forall probe', BlenderExecutor_init probe' blender_path0 timeout0
                                       tempdir = inr self)
  /\ (blender_path0 = None \/ blender_path0 = Some "" ->
      blender_path self ∈ common_paths).
Proof.
  unfold BlenderExecutor_init. intros Hinit.
  pose proof (find_blender_in_common_paths probe) as Hsearch.
  destruct blender_path0 as [path|].
  - case_bool_decide as Hp.
    + subst path. destruct (_find_blender_executable probe) as [e|p] eqn:Ef;
        [discriminate|]. injection Hinit as <-. cbn [timeout blender_path].
      split; [reflexivity|]. split.
      { intros name. unfold script_file_of, output_file_of. cbn [temp_dir].
        rewrite !append_assoc. split; reflexivity. }
      split; [intros path [= <-] Hne; now contradict Hne|].
      intros _. now apply Hsearch.
    + injection Hinit as <-. cbn [timeout blender_path].
      split; [reflexivity|]. split.
      { intros name. unfold script_file_of, output_file_of. cbn [temp_dir].
        rewrite !append_assoc. split; reflexivity. }
      split.
      * intros path' [= <-] _. split; [reflexivity|]. intros probe'.
        reflexivity.
      * intros [H | [= H]]; [discriminate | now contradict Hp].
  - destruct (_find_blender_executable probe) as [e|p] eqn:Ef; [discriminate|].
    injection Hinit as <-. cbn [timeout blender_path].
    split; [reflexivity|]. split.
    { intros name. unfold script_file_of, output_file_of. cbn [temp_dir].
      rewrite !append_assoc. split; reflexivity. }
    split; [discriminate|]. intros _. now apply Hsearch.
Qed.

Lemma executor_init_spec_witness :
  BlenderExecutor_init probe_usr_local None 60 "/tmp"
  = inr (mk_executor "/usr/local/bin/blender" 60 "/tmp/blender_mcp")
  /\ script_file_of (mk_executor "/usr/local/bin/blender" 60 "/tmp/blender_mcp") "t1"
     = "/tmp/blender_mcp/t1.py".
Proof.
  assert (Hinit : BlenderExecutor_init probe_usr_local None 60 "/tmp"
                  = inr (mk_executor "/usr/local/bin/blender" 60 "/tmp/blender_mcp"))
    by reflexivity.
  split; [exact Hinit|].
  destruct (executor_init_spec probe_usr_local None 60 "/tmp" _ Hinit)
    as (_ & Hfiles & _).
  rewrite (proj1 (Hfiles "t1")). reflexivity.
Defined.

(** ** The tools *)

Lemma name_char_repr (c : ascii) :
  name_char c = true ->
  repr_char "'" c = String c "" /\ Ascii.eqb c "'" = false /\ Ascii.eqb c DQ = false.
Proof.
  destruct c as [[] [] [] [] [] [] [] []]; vm_compute; intros H;
    first [discriminate H | repeat split].
Qed.

Lemma all_name_chars_repr (s : string) :
  all_name_chars s = true ->
  repr_body "'" s = s /\ contains_char "'" s = false /\ contains_char DQ s = false.
Proof.
  induction s as [|c s IH]; [repeat split|].
  cbn [all_name_chars repr_body contains_char]. intros H.
  apply andb_true_iff in H as [Hc Hs].
  destruct (name_char_repr c Hc) as (-> & -> & ->).
  destruct (IH Hs) as (-> & -> & ->). repeat split.
Qed.

(** [repr] of a name of the grammar is the name between single quotes. *)
Lemma py_repr_grammar (name : string) :
  name_grammar name = true -> py_repr name = "'" +:+ name +:+ "'".
Proof.
  intros H. assert (Ha : all_name_chars name = true) by (destruct name; [discriminate | exact H]).
  destruct (all_name_chars_repr name Ha) as (Hb & Hq & Hd).
  unfold py_repr. rewrite Hq. cbn [andb]. rewrite Hb. reflexivity.
Qed.

(** X18. The tools [add_script] and [remove_script] answer every call: the
    success text when the repository operation went through, otherwise
    [Error adding script: ] or [Error removing script: ] followed by the
    message of the error (the invalid-name message, "already exists",
    "not found"), and then the repository is exactly as before. *)
Theorem server_add_remove_replies (name content now : string) (s : ScriptManager) :
  (re_match_name name = false ->
   Server.add_script name content now s
   = (s, "Error adding script: " +:+ invalid_name_msg)
   /\ Server.remove_script name s
      = (s, "Error removing script: " +:+ invalid_name_msg))
  /\ (re_match_name name = true ->
      (is_Some (scripts_path s !! name) ->
       Server.add_script name content now s
       = (s, "Error adding script: " +:+ already_exists_msg name)
       /\ Server.remove_script name s
          = (fst (remove_script name s), "Script '" +:+ name +:+ "' removed successfully")
       /\ scripts_path (fst (remove_script name s)) !! name = None)
      /\ (scripts_path s !! name = None ->
          Server.add_script name content now s
          = (fst (add_script name content now s),
             "Script '" +:+ name +:+ "' added successfully")
          /\ scripts_path (fst (add_script name content now s)) !! name = Some content
          /\ Server.remove_script name s
             = (s, "Error removing script: " +:+ not_found_msg name))).
Proof.
  unfold Server.add_script, Server.remove_script. split.
  - intros H.
    destruct (rejected_name_no_mutation name content "" now s H)
      as (-> & _ & _ & -> & _). split; reflexivity.
  - intros H. rewrite (add_script_run _ _ _ _ H), (remove_script_run _ _ H). split.
    + intros [old E]. rewrite E. split; [reflexivity|].
      destruct (metadata s !! name); cbn [fst snd scripts_path];
        (split; [reflexivity | apply lookup_delete_eq]).
    + intros E. rewrite E. cbn [fst snd scripts_path].
      split; [reflexivity|]. split; [apply lookup_insert_eq | reflexivity].
Qed.

(** X19. The tool [edit_script] on a name of the grammar: without a content
    unit it replies with the not-found error and changes nothing; with a
    content unit and a metadata entry it replies with the success text;
    with a content unit but no metadata entry it overwrites the content
    and replies [Error updating script: ] followed by the name in single
    quotes, the text of the escaped [KeyError]. *)
Theorem server_edit_script_replies (name content now : string) (s : ScriptManager) :
  name_grammar name = true ->
  (scripts_path s !! name = None ->
   Server.edit_script name content now s
   = (s, "Error updating script: " +:+ not_found_msg name))
  /\ (is_Some (scripts_path s !! name) -> is_Some (metadata s !! name) ->
      snd (Server.edit_script name content now s)
      = "Script '" +:+ name +:+ "' updated successfully"
      /\ scripts_path (fst (Server.edit_script name content now s)) !! name
         = Some content)
  /\ (orphan name s ->
      Server.edit_script name content now s
      = (mk_manager (<[name := content]> (scripts_path s)) (results_path s)
                    (metadata_path s) (metadata s),
         "Error updating script: '" +:+ name +:+ "'")).
Proof.
  intros Hg. pose proof (name_grammar_accepted _ Hg) as H.
  unfold Server.edit_script. rewrite (edit_script_run _ _ _ _ H).
  split; [|split].
  - intros ->. reflexivity.
  - intros [old ->] [info ->]. cbn [fst snd scripts_path].
    split; [reflexivity | apply lookup_insert_eq].
  - intros [[old ->] ->]. cbn [str_exn]. rewrite (py_repr_grammar _ Hg).
    reflexivity.
Qed.

Lemma server_edit_script_replies_witness :
  name_grammar "t1" = true
  /\ orphan "t1" repo_orphan
  /\ snd (Server.edit_script "t1" "pass" "2025-01-02T00:00:00" repo_orphan)
     = "Error updating script: 't1'"
  /\ scripts_path (fst (Server.edit_script "t1" "pass" "2025-01-02T00:00:00" repo_orphan))
       !! "t1" = Some "pass".
Proof.
  split; [reflexivity|]. split; [exact repo_orphan_is_orphan|].
  destruct (server_edit_script_replies "t1" "pass" "2025-01-02T00:00:00" repo_orphan
              eq_refl) as (_ & _ & Horph).
  rewrite (Horph repo_orphan_is_orphan). cbn [fst snd scripts_path].
  split; [reflexivity | apply lookup_insert_eq].
Defined.

(** X20. The tool [execute_script] on a valid name with a content unit
    runs the harness on the content as [get] returns it, saves the text the
    harness returned as the result, and replies with the success text,
    whatever happened to the run: a timeout or a failed host process is
    reported as "executed successfully" too. *)
Theorem server_execute_script_existing
    (subprocess_run : list string -> gmap string string -> gmap string string * run_result)
    (blender_executor : BlenderExecutor) (name now bytes : string)
    (blend_file : option string) (s : ScriptManager) (fs : gmap string string) :
  re_match_name name = true ->
  scripts_path s !! name = Some bytes ->
  let run := execute subprocess_run blender_executor name (read_text bytes)
               blend_file fs in
  Server.execute_script subprocess_run blender_executor name blend_file now s fs
  = ((fst (save_result name (snd run) now s), fst run),
     inr (Server.executed_msg name))
  /\ results_path (fst (save_result name (snd run) now s)) !! name = Some (snd run).
Proof.
  intros H E run. subst run. unfold Server.execute_script.
  rewrite (get_script_run _ _ H), E.
  destruct (execute subprocess_run blender_executor name (read_text bytes) blend_file fs)
    as [fs' text]. cbn [fst snd].
  rewrite (save_result_run _ _ _ _ H).
  destruct (metadata s !! name); cbn [fst snd results_path];
    (split; [reflexivity | apply lookup_insert_eq]).
Qed.

Lemma server_execute_script_existing_witness :
  snd (Server.execute_script host_hangs executor0 "t1" None "2025-01-02T00:00:00"
         repo_t1 ∅)
  = inr "Script 't1' executed successfully. Use 'result://t1' to see the output."
  /\ snd (get_result "t1"
            (fst (fst (Server.execute_script host_hangs executor0 "t1" None
                         "2025-01-02T00:00:00" repo_t1 ∅))))
     = inr "Script execution timed out after 60 seconds".
Proof.
  destruct (server_execute_script_existing host_hangs executor0 "t1"
              "2025-01-02T00:00:00" "print('hi')" None repo_t1 ∅ eq_refl eq_refl)
    as [-> _].
  split; reflexivity.
Defined.

(** X21. The tool [execute_script] on a valid name without a content unit
    does not run the harness (the files are untouched, whatever the host
    would do); it replies [Error executing script: Script '<name>' not
    found] and saves that reply as the result of the name, so that
    [get_result] afterwards returns it instead of the no-results text. *)
Theorem server_execute_script_missing
    (subprocess_run : list string -> gmap string string -> gmap string string * run_result)
    (blender_executor : BlenderExecutor) (name now : string)
    (blend_file : option string) (s : ScriptManager) (fs : gmap string string) :
  re_match_name name = true ->
  scripts_path s !! name = None ->
  let error_msg := "Error executing script: " +:+ not_found_msg name in
  Server.execute_script subprocess_run blender_executor name blend_file now s fs
  = ((fst (save_result name error_msg now s), fs), inr error_msg)
  /\ snd (get_result name (fst (save_result name error_msg now s)))
     = inr (read_text error_msg).
Proof.
  intros H E error_msg. subst error_msg.
  unfold Server.execute_script, Server.execute_script_except.
  rewrite (get_script_run _ _ H), E. cbn [str_exn].
  rewrite (save_result_run _ _ _ _ H), (get_result_run _ _ H).
  destruct (metadata s !! name); cbn [fst snd results_path];
    rewrite lookup_insert_eq; split; reflexivity.
Qed.

Lemma server_execute_script_missing_witness :
  snd (Server.execute_script (host_exits 0) executor0 "t2" None "2025-01-02T00:00:00"
         repo_t1 ∅)
  = inr "Error executing script: Script 't2' not found"
  /\ snd (get_result "t2"
            (fst (fst (Server.execute_script (host_exits 0) executor0 "t2" None
                         "2025-01-02T00:00:00" repo_t1 ∅))))
     = inr "Error executing script: Script 't2' not found".
Proof.
  destruct (server_execute_script_missing (host_exits 0) executor0 "t2"
              "2025-01-02T00:00:00" None repo_t1 ∅ eq_refl eq_refl) as [-> Hget].
  split; [reflexivity | exact Hget].
Defined.

(** X22. The tool [execute_script] on a name the validator rejects raises:
    the [ValueError] of [get_script] is caught, but saving the error text
    validates the name again and that [ValueError] leaves the tool.  The
    repository and the files are untouched. *)
Theorem server_execute_script_invalid_name
    (subprocess_run : list string -> gmap string string -> gmap string string * run_result)
    (blender_executor : BlenderExecutor) (name now : string)
    (blend_file : option string) (s : ScriptManager) (fs : gmap string string) :
  re_match_name name = false ->
  Server.execute_script subprocess_run blender_executor name blend_file now s fs
  = ((s, fs), inl (ValueError invalid_name_msg)).
Proof.
  intros H. unfold Server.execute_script, Server.execute_script_except.
  destruct (rejected_name_no_mutation name "" ("Error executing script: "
              +:+ str_exn (ValueError invalid_name_msg)) now s H)
    as (_ & _ & -> & _ & -> & _).
  reflexivity.
Qed.

Lemma server_execute_script_invalid_name_witness :
  re_match_name "my script" = false
  /\ Server.execute_script host_hangs executor0 "my script" None "2025-01-02T00:00:00"
       repo_t1 ∅
     = ((repo_t1, ∅), inl (ValueError invalid_name_msg)).
Proof.
  split; [reflexivity|].
  exact (server_execute_script_invalid_name host_hangs executor0 "my script"
           "2025-01-02T00:00:00" None repo_t1 ∅ eq_refl).
Defined.

Lemma server_add_remove_replies_witness :
  Server.add_script "a/b" "x" "2025-01-02T00:00:00" repo_t1
  = (repo_t1, "Error adding script: Script name can only contain letters, numbers, underscores, and hyphens")
  /\ Server.add_script "t1" "x" "2025-01-02T00:00:00" repo_t1
     = (repo_t1, "Error adding script: Script 't1' already exists")
  /\ Server.remove_script "t2" repo_t1
     = (repo_t1, "Error removing script: Script 't2' not found").
Proof.
  destruct (server_add_remove_replies "a/b" "x" "2025-01-02T00:00:00" repo_t1)
    as [Hbad _].
  destruct (server_add_remove_replies "t1" "x" "2025-01-02T00:00:00" repo_t1)
    as [_ Hthere].
  destruct (server_add_remove_replies "t2" "x" "2025-01-02T00:00:00" repo_t1)
    as [_ Hmissing].
  split; [exact (proj1 (Hbad eq_refl))|].
  split.
  - apply (proj1 (Hthere eq_refl)). vm_compute. eauto.
  - apply (proj2 (Hmissing eq_refl)). reflexivity.
Defined.
